(** * Activity booking backend: the route handlers over a document store

    A shallow embedding of the Express route handlers of
    [src/routes/booking.routes.js], [src/routes/activity.routes.js] and
    [src/routes/auth.routes.js].

    The three Mongoose collections are finite maps from [_id] to document.
    A handler is a function from the store (and the request's data) to the
    HTTP response and the store it leaves behind: each [await doc.save()]
    or [findByIdAndUpdate] is one map update, in the order the source
    performs them.  The store accepts every write; requests run one after
    the other.

    A slot's [availableSpots] is a JavaScript Number: an IEEE 754 binary64
    value, with the arithmetic and comparison of the Standard Library's
    specification of floating-point numbers. *)

From Stdlib Require Import ZArith QArith Ascii String SpecFloat.
From stdpp Require Import gmap strings list fin_maps.

Local Open Scope Z_scope.
Local Open Scope string_scope.

(** ** Documents *)

(** A Mongo [ObjectId]. *)
Definition ObjectId := N.

(** A JavaScript [Date] holding a valid time value, in milliseconds since
    the epoch.  [toISOString()] prints the time value, so two valid dates
    have equal ISO strings exactly when their time values are equal. *)
Definition Date := Z.

(** ** JavaScript Numbers *)

(** A Number is a binary64 floating-point value: a signed zero, a signed
    infinity, NaN, or [(-1)^s * m * 2^e]. *)
Definition Number := spec_float.

Module Number.

Definition prec : Z := 53.
Definition emax : Z := 1024.

(** The Number nearest to an integer (ties to even). *)
Definition ofZ (n : Z) : Number := binary_normalize prec emax n 0 false.
Definition ofN (n : N) : Number := ofZ (Z.of_N n).

Definition zero : Number := ofZ 0.
Definition one : Number := ofZ 1.
Definition infinity : Number := S754_infinity false.

(** [x + y], [x - y], [x < y] and [x <= y] of the language. *)
Definition add (x y : Number) : Number := SFadd prec emax x y.
Definition sub (x y : Number) : Number := SFsub prec emax x y.
Definition lt (x y : Number) : Prop := SFltb x y = true.
Definition le (x y : Number) : Prop := SFleb x y = true.

#[global] Instance eq_dec : EqDecision Number.
Proof. unfold Number. solve_decision. Defined.

#[global] Instance lt_dec x y : Decision (lt x y).
Proof. unfold lt. apply _. Defined.

#[global] Instance le_dec x y : Decision (le x y).
Proof. unfold le. apply _. Defined.

(** The integer a Number is, when it is a finite integer. *)
Definition valueZ (x : Number) : option Z :=
  match x with
  | S754_zero _ => Some 0
  | S754_finite s m e =>
      if (0 <=? e)%Z then Some (cond_Zopp s (Zpos m * 2 ^ e))
      else if (Zpos m mod 2 ^ (- e) =? 0)%Z
           then Some (cond_Zopp s (Zpos m / 2 ^ (- e)))
           else None
  | _ => None
  end.

(** A non-negative integer. *)
Definition isCount (x : Number) : Prop :=
  match valueZ x with
  | Some n => 0 <= n
  | None => False
  end.

#[global] Instance isCount_dec x : Decision (isCount x).
Proof. unfold isCount. destruct (valueZ x); apply _. Defined.

(** A non-negative integer or [Infinity]. *)
Definition countOrInfinity (x : Number) : Prop := isCount x ∨ x = infinity.

#[global] Instance countOrInfinity_dec x : Decision (countOrInfinity x).
Proof. unfold countOrInfinity. apply _. Defined.

End Number.

(** An embedded slot of [activity.schedule]. *)
Record ScheduleSlot := mkSlot {
  date : Date;
  startTime : string;
  endTime : string;
  availableSpots : Number
}.

Record Activity := mkActivity {
  title : string;
  description : string;
  price : Q;
  duration : Z;
  capacity : Z;
  location : string;
  schedule : list ScheduleSlot;
  isActive : bool
}.

(** The [schedule] sub-document of a booking: a copy of three fields of
    the slot that was booked. *)
Record BookedSlot := mkBooked {
  bdate : Date;
  bstartTime : string;
  bendTime : string
}.

(** Modelled from the spec: the Booking schema (models/booking.model) is
    not among the sources.  [numberOfParticipants] is a participant count
    (the only writer, the booking route, stores 1); [status] and
    [paymentStatus] are the schema's strings. *)
Record Booking := mkBooking {
  user : ObjectId;
  activity : ObjectId;
  bschedule : BookedSlot;
  numberOfParticipants : N;
  totalPrice : Q;
  status : string;
  paymentStatus : string
}.

Record User := mkUser {
  name : string;
  email : string;
  password : string;
  phone : string;
  role : string
}.

Record Store := mkStore {
  users : gmap ObjectId User;
  activities : gmap ObjectId Activity;
  bookings : gmap ObjectId Booking
}.

Definition set_activities (st : Store) (m : gmap ObjectId Activity) : Store :=
  {| users := users st; activities := m; bookings := bookings st |}.

Definition set_bookings (st : Store) (m : gmap ObjectId Booking) : Store :=
  {| users := users st; activities := activities st; bookings := m |}.

Definition set_users (st : Store) (m : gmap ObjectId User) : Store :=
  {| users := m; activities := activities st; bookings := bookings st |}.

(** Field assignments on documents. *)
Definition set_availableSpots (s : ScheduleSlot) (n : Number) : ScheduleSlot :=
  {| date := date s; startTime := startTime s; endTime := endTime s;
     availableSpots := n |}.

Definition set_schedule (a : Activity) (l : list ScheduleSlot) : Activity :=
  {| title := title a; description := description a; price := price a;
     duration := duration a; capacity := capacity a; location := location a;
     schedule := l; isActive := isActive a |}.

Definition set_isActive (a : Activity) (b : bool) : Activity :=
  {| title := title a; description := description a; price := price a;
     duration := duration a; capacity := capacity a; location := location a;
     schedule := schedule a; isActive := b |}.

Definition set_status (b : Booking) (s p : string) : Booking :=
  {| user := user b; activity := activity b; bschedule := bschedule b;
     numberOfParticipants := numberOfParticipants b;
     totalPrice := totalPrice b; status := s; paymentStatus := p |}.

(** ** Responses *)

(** The path of a validated field: a top-level body field, or a field of
    the [i]-th element of [schedule] (the instances of [schedule.*.f]). *)
Inductive Path :=
| Field (f : string)
| SlotField (i : nat) (f : string).

(** One entry of [errors.array()]: the field and the [withMessage] text. *)
Record ValidationError := mkError { param : Path; msg : string }.

(** The summary shape of the activity listing. *)
Record Summary := mkSummary {
  sid : ObjectId;
  stitle : string;
  sdescription : string;
  slocation : string;
  sdate : option Date;
  stime : option string
}.

(** The [user] object of the registration response. *)
Record UserView := mkUserView {
  vid : ObjectId;
  vname : string;
  vemail : string;
  vrole : string;
  vphone : string
}.

Inductive Json :=
| JMessage (message : string)
| JFailure (message : string)
| JErrors (errors : list ValidationError)
| JBooked (message : string) (id : ObjectId) (booking : Booking)
| JBooking (id : ObjectId) (booking : Booking)
| JActivity (id : ObjectId) (a : Activity)
| JSummaries (l : list Summary)
| JRegistered (message : string) (token : string) (u : UserView).

(** [res.status(code).json(body)]. *)
Definition Response : Type := Z * Json.

Definition code (r : Response) : Z := fst r.

(** ** Booking routes *)

Module BookingRoutes.

(** [slot => slot.availableSpots > 0] *)
Definition hasSpots (slot : ScheduleSlot) : Prop :=
  Number.lt Number.zero (availableSpots slot).

#[global] Instance hasSpots_dec slot : Decision (hasSpots slot).
Proof. unfold hasSpots. apply _. Defined.

(** The predicate of the cancel route's [find]: the slot's date prints as
    the booking's, and both times are the booking's. *)
Definition sameSlot (b : Booking) (slot : ScheduleSlot) : Prop :=
  date slot = bdate (bschedule b) ∧
  startTime slot = bstartTime (bschedule b) ∧
  endTime slot = bendTime (bschedule b).

#[global] Instance sameSlot_dec b slot : Decision (sameSlot b slot).
Proof. unfold sameSlot. apply _. Defined.

(** [Activity.findOne({ _id: activityId, isActive: true })] *)
Definition findOneActive (st : Store) (activityId : ObjectId) : option Activity :=
  match activities st !! activityId with
  | Some a => if isActive a then Some a else None
  | None => None
  end.

(** [Booking.findOne({ _id: id, user: userId })] *)
Definition findOneOwned (st : Store) (id userId : ObjectId) : option Booking :=
  match bookings st !! id with
  | Some b => if decide (user b = userId) then Some b else None
  | None => None
  end.

Definition NotFoundActivity : Response :=
  (404, JMessage "Activity not found or inactive").
Definition NoAvailability : Response :=
  (400, JMessage "No available slots for this activity").
Definition NotFoundBooking : Response :=
  (404, JMessage "Booking not found").
Definition AlreadyCancelled : Response :=
  (400, JMessage "Booking is already cancelled").
Definition Cancelled : Response :=
  (200, JMessage "Booking cancelled successfully").

(** Modelled from the spec: the schema defaults of a new booking
    (models/booking.model), "pending" for both [status] and
    [paymentStatus]. *)
Definition newBooking (userId activityId : ObjectId) (slot : ScheduleSlot)
    (total : Q) : Booking :=
  {| user := userId; activity := activityId;
     bschedule := {| bdate := date slot; bstartTime := startTime slot;
                     bendTime := endTime slot |};
     numberOfParticipants := 1;
     totalPrice := total;
     status := "pending"; paymentStatus := "pending" |}.

(** [router.post('/')]: book the first available slot.  [userId] is
    [req.user._id], [activityId] is [req.body.activityId] ([None] when it
    is missing or empty).  The new booking's [_id] is one no stored
    booking has.  [scheduleSlot.availableSpots -= 1] is a subtraction of
    Numbers. *)
Definition createBooking (st : Store) (userId : ObjectId)
    (activityId : option ObjectId) : Response * Store :=
  match activityId with
  | None =>
      ((400, JErrors [mkError (Field "activityId") "Activity ID is required"]), st)
  | Some aid =>
      match findOneActive st aid with
      | None => (NotFoundActivity, st)
      | Some act =>
          match list_find hasSpots (schedule act) with
          | None => (NoAvailability, st)
          | Some (i, scheduleSlot) =>
              let totalPrice := price act in
              let booking := newBooking userId aid scheduleSlot totalPrice in
              let bid := fresh (dom (bookings st)) in
              let st1 := set_bookings st (<[bid := booking]> (bookings st)) in
              let slot' :=
                set_availableSpots scheduleSlot
                  (Number.sub (availableSpots scheduleSlot) Number.one) in
              let act' := set_schedule act (<[i := slot']> (schedule act)) in
              let st2 := set_activities st1 (<[aid := act']> (activities st1)) in
              ((201, JBooked "Activity booked successfully" bid booking), st2)
          end
      end
  end.

(** [router.patch('/:id/cancel')].  The booking is saved as cancelled
    before the activity is read; reading [schedule] of a missing activity
    throws, which the handler's [catch] turns into a 500.
    [scheduleSlot.availableSpots += booking.numberOfParticipants] is an
    addition of Numbers. *)
Definition cancelBooking (st : Store) (userId id : ObjectId)
    : Response * Store :=
  match findOneOwned st id userId with
  | None => (NotFoundBooking, st)
  | Some booking =>
      if decide (status booking = "cancelled") then (AlreadyCancelled, st)
      else
        let booking' := set_status booking "cancelled" "refunded" in
        let st1 := set_bookings st (<[id := booking']> (bookings st)) in
        match activities st1 !! activity booking' with
        | None => ((500, JFailure "Error cancelling booking"), st1)
        | Some act =>
            match list_find (sameSlot booking') (schedule act) with
            | Some (i, scheduleSlot) =>
                let slot' :=
                  set_availableSpots scheduleSlot
                    (Number.add (availableSpots scheduleSlot)
                       (Number.ofN (numberOfParticipants booking'))) in
                let act' := set_schedule act (<[i := slot']> (schedule act)) in
                (Cancelled,
                 set_activities st1
                   (<[activity booking' := act']> (activities st1)))
            | None => (Cancelled, st1)
            end
        end
  end.

(** [body(field).isIn(allowed)] on a body field that may be missing. *)
Definition isIn (allowed : list string) (v : option string) : bool :=
  match v with
  | Some s => bool_decide (s ∈ allowed)
  | None => false
  end.

Definition statusErrors (st pay : option string) : list ValidationError :=
  (if isIn ["pending"; "confirmed"; "cancelled"] st then []
   else [mkError (Field "status") "Invalid status"]) ++
  (if isIn ["pending"; "paid"; "refunded"] pay then []
   else [mkError (Field "paymentStatus") "Invalid payment status"]).

(** [router.patch('/:id/status')], behind [adminAuth]:
    [Booking.findByIdAndUpdate(id, { status, paymentStatus }, { new: true })]. *)
Definition updateStatus (st : Store) (id : ObjectId)
    (newStatus newPayment : option string) : Response * Store :=
  match statusErrors newStatus newPayment with
  | [] =>
      match bookings st !! id with
      | None => (NotFoundBooking, st)
      | Some b =>
          let b' := set_status b (default "" newStatus) (default "" newPayment) in
          ((200, JBooking id b'), set_bookings st (<[id := b']> (bookings st)))
      end
  | errors => ((400, JErrors errors), st)
  end.

End BookingRoutes.

(** ** Request validation *)

(** The functions of validator.js that the express-validator chains call,
    on the string form of a field.  They are library code: the chains
    below are stated over any implementation of them. *)
Class ValidatorJs := {
  trim : string → string;
  isLength : nat → option nat → string → bool;
  isInt : Z → option Z → string → bool;
  isFloat : Z → string → bool;
  isISO8601 : string → bool;
  isEmail : string → bool;
  normalizeEmail : string → string
}.

Module Validation.

(** express-validator's [toString] of a body field: a missing field is
    validated as the empty string. *)
Definition toString (v : option string) : string := default "" v.

(** One validator of a chain with its [withMessage] text. *)
Definition check (p : Path) (ok : bool) (message : string)
    : list ValidationError :=
  if ok then [] else [mkError p message].

(** [.notEmpty()] *)
Definition notEmpty (s : string) : bool := negb (bool_decide (s = "")).

(** [.optional()]: the chain is skipped when the field is undefined. *)
Definition optional (v : option string)
    (chain : string → list ValidationError) : list ValidationError :=
  match v with
  | Some s => chain s
  | None => []
  end.

Definition isDigit (c : ascii) : bool :=
  let n := N_of_ascii c in ((48 <=? n) && (n <=? 57))%N.

Definition inRange (lo hi c : ascii) : bool :=
  ((N_of_ascii lo <=? N_of_ascii c) && (N_of_ascii c <=? N_of_ascii hi))%N.

(** [/^([0-1]?[0-9]|2[0-3]):[0-5][0-9]$/] *)
Definition matchesTime (s : string) : bool :=
  match s with
  | String h (String ":" (String m1 (String m2 EmptyString))) =>
      isDigit h && inRange "0" "5" m1 && isDigit m2
  | String h1 (String h2 (String ":" (String m1 (String m2 EmptyString)))) =>
      ((inRange "0" "1" h1 && isDigit h2) ||
       (bool_decide (h1 = "2"%char) && inRange "0" "3" h2))
      && inRange "0" "5" m1 && isDigit m2
  | _ => false
  end.

Fixpoint allChars (p : ascii → bool) (s : string) : bool :=
  match s with
  | EmptyString => true
  | String c s' => p c && allChars p s'
  end.

Fixpoint anyChar (p : ascii → bool) (s : string) : bool :=
  match s with
  | EmptyString => false
  | String c s' => p c || anyChar p s'
  end.

Definition isLetter (c : ascii) : bool :=
  inRange "A" "Z" c || inRange "a" "z" c.

(** The character class [[A-Za-z\d@$!%*#?&]]. *)
Definition passwordChar (c : ascii) : bool :=
  isLetter c || isDigit c ||
  bool_decide (c ∈ ["@"; "$"; "!"; "%"; "*"; "#"; "?"; "&"]%char).

(** [/^(?=.*[A-Za-z])(?=.*\d)[A-Za-z\d@$!%*#?&]{6,}$/]: six or more
    characters of the class, a letter and a digit among them. *)
Definition matchesPassword (s : string) : bool :=
  anyChar isLetter s && anyChar isDigit s &&
  allChars passwordChar s && (6 <=? String.length s)%nat.

(** [/^[0-9]{10}$/] *)
Definition matchesPhone (s : string) : bool :=
  allChars isDigit s && (String.length s =? 10)%nat.

End Validation.

(** ** Activity routes *)

(** The JSON body of an activity request as the validators see it: each
    field in its string form, [None] when the body does not have it.  A
    [schedule] that is present is an array of slot objects. *)
Record RawSlot := mkRawSlot {
  r_date : option string;
  r_startTime : option string;
  r_endTime : option string;
  r_availableSpots : option string
}.

Record RawActivity := mkRawActivity {
  r_title : option string;
  r_description : option string;
  r_price : option string;
  r_duration : option string;
  r_capacity : option string;
  r_location : option string;
  r_schedule : option (list RawSlot)
}.

(** The fields an update sets, after Mongoose has cast them. *)
Record ActivityPatch := mkPatch {
  p_title : option string;
  p_description : option string;
  p_price : option Q;
  p_duration : option Z;
  p_capacity : option Z;
  p_location : option string;
  p_schedule : option (list ScheduleSlot);
  p_isActive : option bool
}.

(** What the Activity model (models/activity.model, not among the
    sources) does with a request body: [castActivity] is
    [new Activity(body)] followed by [save()], [castUpdate] the casting
    and the schema validators that [findByIdAndUpdate] runs with
    [runValidators].  [None] stands for the error they throw. *)
Class ActivityModel := {
  castActivity : RawActivity → option Activity;
  castUpdate : RawActivity → option ActivityPatch
}.

Module ActivityRoutes.
Import Validation.

(** [schedule[0]?.date] and the [time] template string of the listing. *)
Definition summary (id : ObjectId) (a : Activity) : Summary :=
  {| sid := id; stitle := title a; sdescription := description a;
     slocation := location a;
     sdate := date <$> head (schedule a);
     stime := (λ s, startTime s +:+ " - " +:+ endTime s) <$> head (schedule a) |}.

(** [router.get('/')]: [Activity.find({ isActive: true })], formatted. *)
Definition listActive (st : Store) : Response :=
  (200, JSummaries
     ((λ '(id, a), summary id a) <$>
        filter (λ '(_, a), isActive a = true) (map_to_list (activities st)))).

(** [router.get('/:id')] *)
Definition getById (st : Store) (id : ObjectId) : Response :=
  match activities st !! id with
  | None => (404, JMessage "Activity not found")
  | Some a => (200, JActivity id a)
  end.

(** [router.delete('/:id')]:
    [Activity.findByIdAndUpdate(id, { isActive: false }, { new: true })]. *)
Definition softDelete (st : Store) (id : ObjectId) : Response * Store :=
  match activities st !! id with
  | None => ((404, JMessage "Activity not found"), st)
  | Some a =>
      ((200, JMessage "Activity deleted successfully"),
       set_activities st (<[id := set_isActive a false]> (activities st)))
  end.

Section Validated.
Context `{!ValidatorJs} `{!ActivityModel}.

(** The chains shared by create and update, on a field's string form. *)
Definition titleChain (required : string) (v : string) : list ValidationError :=
  let v := trim v in
  check (Field "title") (notEmpty v) required ++
  check (Field "title") (isLength 3 (Some 100%nat) v)
    "Title must be between 3 and 100 characters".

Definition descriptionChain (required : string) (v : string)
    : list ValidationError :=
  let v := trim v in
  check (Field "description") (notEmpty v) required ++
  check (Field "description") (isLength 10 (Some 1000%nat) v)
    "Description must be between 10 and 1000 characters".

Definition priceChain (v : string) : list ValidationError :=
  check (Field "price") (isFloat 0 v) "Price must be a positive number".

Definition durationChain (v : string) : list ValidationError :=
  check (Field "duration") (isInt 15 None v)
    "Duration must be at least 15 minutes".

Definition capacityChain (v : string) : list ValidationError :=
  check (Field "capacity") (isInt 1 (Some 100) v)
    "Capacity must be between 1 and 100".

Definition locationChain (required : string) (v : string)
    : list ValidationError :=
  let v := trim v in
  check (Field "location") (notEmpty v) required ++
  check (Field "location") (isLength 3 (Some 200%nat) v)
    "Location must be between 3 and 200 characters".

(** A chain on [schedule.*.f]: one instance per element of the array. *)
Definition eachSlot (l : option (list RawSlot))
    (chain : nat → RawSlot → list ValidationError) : list ValidationError :=
  mjoin (imap chain (default [] l)).

(** The validators of [router.post('/')]. *)
Definition createErrors (b : RawActivity) : list ValidationError :=
  titleChain "Title is required" (toString (r_title b)) ++
  descriptionChain "Description is required" (toString (r_description b)) ++
  priceChain (toString (r_price b)) ++
  durationChain (toString (r_duration b)) ++
  capacityChain (toString (r_capacity b)) ++
  locationChain "Location is required" (toString (r_location b)) ++
  check (Field "schedule") (bool_decide (is_Some (r_schedule b)))
    "Schedule must be an array" ++
  eachSlot (r_schedule b) (λ i s,
    check (SlotField i "date") (isISO8601 (toString (r_date s)))
      "Valid date is required") ++
  eachSlot (r_schedule b) (λ i s,
    check (SlotField i "startTime") (matchesTime (toString (r_startTime s)))
      "Valid start time is required (HH:MM format)") ++
  eachSlot (r_schedule b) (λ i s,
    check (SlotField i "endTime") (matchesTime (toString (r_endTime s)))
      "Valid end time is required (HH:MM format)") ++
  eachSlot (r_schedule b) (λ i s,
    check (SlotField i "availableSpots")
      (isInt 0 None (toString (r_availableSpots s)))
      "Available spots must be a non-negative number").

(** The validators of [router.put('/:id')]. *)
Definition updateErrors (b : RawActivity) : list ValidationError :=
  optional (r_title b) (titleChain "Title cannot be empty") ++
  optional (r_description b) (descriptionChain "Description cannot be empty") ++
  optional (r_price b) priceChain ++
  optional (r_duration b) durationChain ++
  optional (r_capacity b) capacityChain ++
  optional (r_location b) (locationChain "Location cannot be empty").

(** The body after the sanitizers of the create chains: [trim] also turns
    a missing field into the empty string. *)
Definition createSanitized (b : RawActivity) : RawActivity :=
  {| r_title := Some (trim (toString (r_title b)));
     r_description := Some (trim (toString (r_description b)));
     r_price := r_price b; r_duration := r_duration b;
     r_capacity := r_capacity b;
     r_location := Some (trim (toString (r_location b)));
     r_schedule := r_schedule b |}.

(** The body after the sanitizers of the update chains. *)
Definition updateSanitized (b : RawActivity) : RawActivity :=
  {| r_title := trim <$> r_title b;
     r_description := trim <$> r_description b;
     r_price := r_price b; r_duration := r_duration b;
     r_capacity := r_capacity b;
     r_location := trim <$> r_location b;
     r_schedule := r_schedule b |}.

(** [router.post('/')], behind [adminAuth]. *)
Definition createActivity (st : Store) (body : RawActivity)
    : Response * Store :=
  match createErrors body with
  | [] =>
      match castActivity (createSanitized body) with
      | None => ((500, JFailure "Error creating activity"), st)
      | Some a =>
          let id := fresh (dom (activities st)) in
          ((201, JActivity id a),
           set_activities st (<[id := a]> (activities st)))
      end
  | errors => ((400, JErrors errors), st)
  end.

(** [$set] of the fields the update has. *)
Definition applyPatch (p : ActivityPatch) (a : Activity) : Activity :=
  {| title := default (title a) (p_title p);
     description := default (description a) (p_description p);
     price := default (price a) (p_price p);
     duration := default (duration a) (p_duration p);
     capacity := default (capacity a) (p_capacity p);
     location := default (location a) (p_location p);
     schedule := default (schedule a) (p_schedule p);
     isActive := default (isActive a) (p_isActive p) |}.

(** [router.put('/:id')], behind [adminAuth]:
    [Activity.findByIdAndUpdate(id, req.body, { new: true, runValidators: true })]. *)
Definition updateActivity (st : Store) (id : ObjectId) (body : RawActivity)
    : Response * Store :=
  match updateErrors body with
  | [] =>
      match castUpdate (updateSanitized body) with
      | None => ((500, JFailure "Error updating activity"), st)
      | Some p =>
          match activities st !! id with
          | None => ((404, JMessage "Activity not found"), st)
          | Some a =>
              let a' := applyPatch p a in
              ((200, JActivity id a'),
               set_activities st (<[id := a']> (activities st)))
          end
      end
  | errors => ((400, JErrors errors), st)
  end.

End Validated.
End ActivityRoutes.

(** ** Auth routes *)

Record RawRegister := mkRawRegister {
  r_name : option string;
  r_email : option string;
  r_password : option string;
  r_phone : option string
}.

(** What the registration route takes from outside the route file: the
    User model's hashing of the password on [save()] (models/user.model,
    not among the sources) and [jwt.sign] of the new user's id. *)
Class AuthServices := {
  hashPassword : string → string;
  signToken : ObjectId → string
}.

Module AuthRoutes.
Import Validation.

Section Register.
Context `{!ValidatorJs} `{!AuthServices}.

(** [req.body] after the sanitizers of the four chains. *)
Definition sanitizedName (b : RawRegister) : string :=
  trim (toString (r_name b)).
Definition sanitizedEmail (b : RawRegister) : string :=
  normalizeEmail (trim (toString (r_email b))).
Definition sanitizedPassword (b : RawRegister) : string :=
  trim (toString (r_password b)).
Definition sanitizedPhone (b : RawRegister) : string :=
  trim (toString (r_phone b)).

(** The validators of [router.post('/register')]. *)
Definition registerErrors (b : RawRegister) : list ValidationError :=
  (let v := sanitizedName b in
   check (Field "name") (notEmpty v) "Name is required" ++
   check (Field "name") (isLength 2 (Some 50%nat) v)
     "Name must be between 2 and 50 characters") ++
  (let v := trim (toString (r_email b)) in
   check (Field "email") (notEmpty v) "Email is required" ++
   check (Field "email") (isEmail v) "Please enter a valid email") ++
  (let v := sanitizedPassword b in
   check (Field "password") (notEmpty v) "Password is required" ++
   check (Field "password") (isLength 6 None v)
     "Password must be at least 6 characters long" ++
   check (Field "password") (matchesPassword v)
     "Password must contain at least one letter and one number") ++
  (let v := sanitizedPhone b in
   check (Field "phone") (notEmpty v) "Phone number is required" ++
   check (Field "phone") (matchesPhone v) "Phone number must be 10 digits").

(** [User.findOne({ email })] *)
Definition findByEmail (st : Store) (e : string) : option (ObjectId * User) :=
  snd <$> list_find (λ p : ObjectId * User, email (snd p) = e)
            (map_to_list (users st)).

(** [email === 'admin@example.com' ? 'admin' : 'user'] *)
Definition roleFor (e : string) : string :=
  if decide (e = "admin@example.com") then "admin" else "user".

(** [router.post('/register')] *)
Definition register (st : Store) (body : RawRegister) : Response * Store :=
  match registerErrors body with
  | [] =>
      let name := sanitizedName body in
      let email := sanitizedEmail body in
      let password := sanitizedPassword body in
      let phone := sanitizedPhone body in
      match findByEmail st email with
      | Some _ => ((400, JMessage "User already exists"), st)
      | None =>
          let user :=
            {| name := name; email := email;
               password := hashPassword password; phone := phone;
               role := roleFor email |} in
          let id := fresh (dom (users st)) in
          ((201, JRegistered "User registered successfully" (signToken id)
                  {| vid := id; vname := name; vemail := email;
                     vrole := role user; vphone := phone |}),
           set_users st (<[id := user]> (users st)))
      end
  | errors => ((400, JErrors errors), st)
  end.

End Register.
End AuthRoutes.

(** ** Sequences of requests *)

Inductive Request :=
| Reserve (userId : ObjectId) (activityId : option ObjectId)
| Cancel (userId : ObjectId) (bookingId : ObjectId).

Definition handle (st : Store) (r : Request) : Response * Store :=
  match r with
  | Reserve u a => BookingRoutes.createBooking st u a
  | Cancel u b => BookingRoutes.cancelBooking st u b
  end.

(** The store after a list of requests handled one after the other. *)
Definition run (st : Store) (rs : list Request) : Store :=
  foldl (λ st r, snd (handle st r)) st rs.

(** Every slot of every stored activity has [availableSpots >= 0]. *)
Definition slotsNonNegative (a : Activity) : Prop :=
  Forall (λ slot, Number.le Number.zero (availableSpots slot)) (schedule a).

Definition spotsNonNegative (st : Store) : Prop :=
  map_Forall (λ _ a, slotsNonNegative a) (activities st).

#[global] Instance spotsNonNegative_dec st : Decision (spotsNonNegative st).
Proof. unfold spotsNonNegative, slotsNonNegative. apply _. Defined.

(** Every slot of every stored activity has a non-negative integer, or
    [Infinity], as [availableSpots]. *)
Definition wholeSlots (a : Activity) : Prop :=
  Forall (λ slot, Number.countOrInfinity (availableSpots slot)) (schedule a).

Definition wholeCounts (st : Store) : Prop :=
  map_Forall (λ _ a, wholeSlots a) (activities st).

#[global] Instance wholeCounts_dec st : Decision (wholeCounts st).
Proof. unfold wholeCounts, wholeSlots. apply _. Defined.

(** A count that integer arithmetic describes exactly: the Number of an
    integer from 0 to 2^53. *)
Definition smallCount (x : Number) : Prop :=
  ∃ n, 0 <= n <= 2 ^ 53 ∧ x = Number.ofZ n.

Definition smallSlots (a : Activity) : Prop :=
  Forall (λ slot, smallCount (availableSpots slot)) (schedule a).

(** The store a successful reservation leaves: the booking under a new id,
    then the activity with slot [i] decremented. *)
Definition reserved (st : Store) (userId aid : ObjectId) (act : Activity)
    (i : nat) (slot : ScheduleSlot) : Store :=
  set_activities
    (set_bookings st
       (<[fresh (dom (bookings st)) :=
            BookingRoutes.newBooking userId aid slot (price act)]> (bookings st)))
    (<[aid := set_schedule act
                (<[i := set_availableSpots slot
                          (Number.sub (availableSpots slot) Number.one)]>
                   (schedule act))]> (activities st)).

(** ** Sample data *)

Module Sample.

(** 2026-03-01, no spot left. *)
Definition slotFull : ScheduleSlot :=
  mkSlot 1772323200000 "09:00" "10:00" (Number.ofZ 0).
(** 2026-06-01, two spots. *)
Definition slotJune : ScheduleSlot :=
  mkSlot 1780272000000 "09:00" "10:00" (Number.ofZ 2).
(** 2026-04-01, five spots: sooner than [slotJune], stored after it. *)
Definition slotApril : ScheduleSlot :=
  mkSlot 1775001600000 "18:00" "19:30" (Number.ofZ 5).
(** 2026-05-01, the last spot. *)
Definition slotLast : ScheduleSlot :=
  mkSlot 1777593600000 "07:30" "08:30" (Number.ofZ 1).

Definition yoga : Activity :=
  {| title := "Sunrise yoga"; description := "An hour of yoga on the beach";
     price := 25 # 2; duration := 60; capacity := 20;
     location := "North beach";
     schedule := [slotFull; slotJune; slotApril]; isActive := true |}.

Definition kayak : Activity :=
  {| title := "Kayak tour"; description := "Guided tour of the harbour";
     price := 40 # 1; duration := 90; capacity := 8;
     location := "Old harbour";
     schedule := [slotLast]; isActive := true |}.

Definition alice : ObjectId := 7%N.
Definition bob : ObjectId := 8%N.

Definition store0 : Store :=
  {| users := ∅;
     activities := <[1%N := yoga]> (<[2%N := kayak]> ∅);
     bookings := ∅ |}.

(** Alice has booked the kayak tour. *)
Definition store1 : Store :=
  snd (BookingRoutes.createBooking store0 alice (Some 2%N)).

(** The id of Alice's booking. *)
Definition booking1 : ObjectId := fresh (dom (bookings store0)).

(** Alice has cancelled it. *)
Definition store2 : Store :=
  snd (BookingRoutes.cancelBooking store1 alice booking1).

(** The kayak tour's only slot was replaced after Alice booked it. *)
Definition store1' : Store :=
  set_activities store1
    (<[2%N := set_schedule kayak
                [mkSlot 1777593600000 "08:00" "09:00" (Number.ofZ 4)]]>
       (activities store1)).

(** A slot no create request may carry: its times are not [HH:MM] times
    and its spot count is negative. *)
Definition badSlot : RawSlot :=
  {| r_date := Some "2026-05-01"; r_startTime := Some "25:61";
     r_endTime := Some "26:00"; r_availableSpots := Some "-3" |}.

(** The body [{ "schedule": [badSlot] }]. *)
Definition badUpdate : RawActivity :=
  {| r_title := None; r_description := None; r_price := None;
     r_duration := None; r_capacity := None; r_location := None;
     r_schedule := Some [badSlot] |}.

End Sample.

(** ** A plain-ASCII validator for the sample requests *)

(** Stand-ins for the validator.js functions and for the services of the
    registration route, on plain ASCII input.  They only serve to run the
    routes on the sample requests. *)
Module Plain.

Definition isSpace (c : ascii) : bool :=
  bool_decide (c ∈ [" "; "009"; "010"; "013"]%char).

Fixpoint ltrim (s : string) : string :=
  match s with
  | String c s' => if isSpace c then ltrim s' else s
  | EmptyString => EmptyString
  end.

Definition trim (s : string) : string :=
  String.rev (ltrim (String.rev (ltrim s))).

Definition lower (c : ascii) : ascii :=
  if Validation.inRange "A" "Z" c then ascii_of_N (N_of_ascii c + 32) else c.

Fixpoint lowercase (s : string) : string :=
  match s with
  | String c s' => String (lower c) (lowercase s')
  | EmptyString => EmptyString
  end.

Definition isLength (lo : nat) (hi : option nat) (s : string) : bool :=
  (lo <=? String.length s)%nat &&
  match hi with
  | Some h => (String.length s <=? h)%nat
  | None => true
  end.

(** The value of a string of decimal digits. *)
Fixpoint digits (acc : Z) (s : string) : option Z :=
  match s with
  | EmptyString => Some acc
  | String c s' =>
      if Validation.isDigit c
      then digits (10 * acc + Z.of_N (N_of_ascii c - 48)) s'
      else None
  end.

Definition parseInt (s : string) : option Z :=
  match s with
  | EmptyString => None
  | String "-" (String c s') => Z.opp <$> digits 0 (String c s')
  | _ => digits 0 s
  end.

Definition isInt (lo : Z) (hi : option Z) (s : string) : bool :=
  match parseInt s with
  | Some n =>
      (lo <=? n)%Z && match hi with Some h => (n <=? h)%Z | None => true end
  | None => false
  end.

(** Integers only: every integer string is also a float. *)
Definition isFloat (lo : Z) (s : string) : bool := isInt lo None s.

(** [YYYY-MM-DD] *)
Definition isISO8601 (s : string) : bool :=
  match s with
  | String y1 (String y2 (String y3 (String y4 (String "-"
      (String m1 (String m2 (String "-" (String d1 (String d2 EmptyString))))))))) =>
      forallb Validation.isDigit [y1; y2; y3; y4; m1; m2; d1; d2]
  | _ => false
  end.

Fixpoint count (c : ascii) (s : string) : nat :=
  match s with
  | String c' s' => (if bool_decide (c = c') then 1 else 0) + count c s'
  | EmptyString => 0
  end.

(** One [@], not at either end, and no space. *)
Definition isEmail (s : string) : bool :=
  (count "@" s =? 1)%nat && negb (Validation.anyChar isSpace s) &&
  match s, String.rev s with
  | String a _, String z _ =>
      negb (bool_decide (a = "@"%char)) && negb (bool_decide (z = "@"%char))
  | _, _ => false
  end.

Definition validator : ValidatorJs :=
  Build_ValidatorJs trim isLength isInt isFloat isISO8601 isEmail lowercase.

Definition services : AuthServices :=
  {| hashPassword := λ p, "hashed:" +:+ p;
     signToken := λ _, "token" |}.

Definition adminForm : RawRegister :=
  {| r_name := Some "Ada"; r_email := Some "admin@example.com";
     r_password := Some "secret1"; r_phone := Some "0123456789" |}.

Definition guestForm : RawRegister :=
  {| r_name := Some "Grace"; r_email := Some "grace@example.com";
     r_password := Some "secret2"; r_phone := Some "0123456780" |}.

End Plain.

(** ** Booking listings *)

Module BookingViews.

(** [router.get('/my-bookings')]: the caller's bookings with [activity]
    populated, each shown as the summary of its activity.  Populating a
    reference to a missing activity gives [null], and reading [_id] of it
    throws, which the handler's [catch] turns into a 500. *)
Definition myBookings (st : Store) (userId : ObjectId) : Response :=
  let found :=
    filter (λ p : ObjectId * Booking, user (snd p) = userId)
      (map_to_list (bookings st)) in
  match
    mapM (λ p : ObjectId * Booking,
            ActivityRoutes.summary (activity (snd p))
              <$> activities st !! activity (snd p)) found
  with
  | Some formatted => (200, JSummaries formatted)
  | None => (500, JFailure "Error fetching bookings")
  end.

(** A booking of the admin listing: [user] populated with name and
    email, [activity] with the title, [null] for a missing reference. *)
Record BookingRow := mkRow {
  row_id : ObjectId;
  row_booking : Booking;
  row_user : option (string * string);
  row_activity : option string
}.

(** [router.get('/')], behind [adminAuth]:
    [Booking.find().populate('user', 'name email').populate('activity', 'title')]. *)
Definition listAll (st : Store) : Z * list BookingRow :=
  (200,
   (λ p : ObjectId * Booking,
      {| row_id := fst p; row_booking := snd p;
         row_user := (λ u, (name u, email u)) <$> users st !! user (snd p);
         row_activity := title <$> activities st !! activity (snd p) |})
     <$> map_to_list (bookings st)).

End BookingViews.

(** ** Login *)

Record RawLogin := mkRawLogin {
  l_email : option string;
  l_password : option string
}.

(** [user.comparePassword(candidate)] of the User model
    (models/user.model, not among the sources). *)
Class PasswordCheck := {
  comparePassword : User → string → bool
}.

Inductive AuthJson :=
| AErrors (errors : list ValidationError)
| AMessage (message : string)
| ALoggedIn (message : string) (token : string)
    (id : ObjectId) (name email role : string).

Module AuthSession.
Import Validation.

Section Login.
Context `{!ValidatorJs} `{!AuthServices} `{!PasswordCheck}.

Definition loginEmail (b : RawLogin) : string :=
  normalizeEmail (trim (toString (l_email b))).
Definition loginPassword (b : RawLogin) : string :=
  trim (toString (l_password b)).

(** The validators of [router.post('/login')]. *)
Definition loginErrors (b : RawLogin) : list ValidationError :=
  (let v := trim (toString (l_email b)) in
   check (Field "email") (notEmpty v) "Email is required" ++
   check (Field "email") (isEmail v) "Please enter a valid email") ++
  check (Field "password") (notEmpty (loginPassword b)) "Password is required".

(** [router.post('/login')] *)
Definition login (st : Store) (body : RawLogin) : Z * AuthJson :=
  match loginErrors body with
  | [] =>
      match AuthRoutes.findByEmail st (loginEmail body) with
      | None => (401, AMessage "Invalid credentials")
      | Some (id, u) =>
          if comparePassword u (loginPassword body)
          then (200, ALoggedIn "Login successful" (signToken id)
                       id (name u) (email u) (role u))
          else (401, AMessage "Invalid credentials")
      end
  | errors => (400, AErrors errors)
  end.

End Login.
End AuthSession.

(** ** All the routes that write *)

Module Api.

(** A request to one of the seven routes that write to the store, past
    its [auth] or [adminAuth] middleware. *)
Inductive Call :=
| Register (form : RawRegister)
| CreateActivity (body : RawActivity)
| UpdateActivity (id : ObjectId) (body : RawActivity)
| DeleteActivity (id : ObjectId)
| Book (userId : ObjectId) (activityId : option ObjectId)
| CancelBooking (userId : ObjectId) (bookingId : ObjectId)
| SetStatus (bookingId : ObjectId) (newStatus newPayment : option string).

Section Serve.
Context `{!ValidatorJs} `{!ActivityModel} `{!AuthServices}.

Definition serve (st : Store) (c : Call) : Response * Store :=
  match c with
  | Register form => AuthRoutes.register st form
  | CreateActivity body => ActivityRoutes.createActivity st body
  | UpdateActivity id body => ActivityRoutes.updateActivity st id body
  | DeleteActivity id => ActivityRoutes.softDelete st id
  | Book u a => BookingRoutes.createBooking st u a
  | CancelBooking u b => BookingRoutes.cancelBooking st u b
  | SetStatus b s p => BookingRoutes.updateStatus st b s p
  end.

(** The store after a list of calls served one after the other. *)
Definition serveAll (st : Store) (cs : list Call) : Store :=
  foldl (λ st c, snd (serve st c)) st cs.

End Serve.

(** No two stored users have the same email. *)
Definition uniqueEmails (st : Store) : Prop :=
  ∀ i j u v, users st !! i = Some u → users st !! j = Some v →
    email u = email v → i = j.

(** What no route writes on a stored booking. *)
Definition sameReservation (b b' : Booking) : Prop :=
  user b' = user b ∧ activity b' = activity b ∧
  bschedule b' = bschedule b ∧
  numberOfParticipants b' = numberOfParticipants b ∧
  totalPrice b' = totalPrice b.

End Api.

(** The answers to a list of reserve and cancel requests handled one
    after the other. *)
Fixpoint answers (st : Store) (rs : list Request) : list Response :=
  match rs with
  | [] => []
  | r :: rs' => fst (handle st r) :: answers (snd (handle st r)) rs'
  end.

(** The spots left on an activity, over all its slots whose count is an
    integer. *)
Definition totalSpots (a : Activity) : Z :=
  foldr (λ slot n, default 0 (Number.valueZ (availableSpots slot)) + n) 0
    (schedule a).

(** ** Writing a time of day *)

Module Clock.

Definition digitChar (n : nat) : ascii := ascii_of_nat (48 + n).

Definition twoDigits (n : nat) : string :=
  String (digitChar (n / 10)) (String (digitChar (n mod 10)) EmptyString).

(** [HH:MM] *)
Definition clock (h m : nat) : string := twoDigits h +:+ ":" +:+ twoDigits m.

(** [H:MM], for an hour below ten. *)
Definition shortClock (h m : nat) : string :=
  String (digitChar h) (":" +:+ twoDigits m).

End Clock.

(** ** More sample data *)

Module Sample2.

(** Two slots with the same date and times: the first is full. *)
Definition twin : Activity :=
  {| title := "Sunset walk"; description := "A walk along the cliffs";
     price := 10 # 1; duration := 45; capacity := 10;
     location := "West cliffs";
     schedule := [mkSlot 1777593600000 "19:00" "20:00" (Number.ofZ 0);
                  mkSlot 1777593600000 "19:00" "20:00" (Number.ofZ 3)];
     isActive := true |}.

Definition store3 : Store :=
  {| users := ∅; activities := <[3%N := twin]> (activities Sample.store0);
     bookings := ∅ |}.

(** Days from 1970-01-01 to a civil date. *)
Definition daysFromCivil (y m d : Z) : Z :=
  let y' := if (m <=? 2)%Z then y - 1 else y in
  let era := y' / 400 in
  let yoe := y' - era * 400 in
  let doy := (153 * (m + (if (2 <? m)%Z then -3 else 9)) + 2) / 5 + d - 1 in
  let doe := yoe * 365 + yoe / 4 - yoe / 100 + doy in
  era * 146097 + doe - 719468.

(** The time value of a [YYYY-MM-DD] date at midnight UTC. *)
Definition parseDate (s : string) : option Date :=
  match s with
  | String y1 (String y2 (String y3 (String y4 (String "-"
      (String m1 (String m2 (String "-" (String d1 (String d2 EmptyString))))))))) =>
      y ← Plain.digits 0 (String y1 (String y2 (String y3 (String y4 ""))));
      m ← Plain.digits 0 (String m1 (String m2 ""));
      d ← Plain.digits 0 (String d1 (String d2 ""));
      Some (daysFromCivil y m d * 86400000)
  | _ => None
  end.

Definition castSlot (s : RawSlot) : option ScheduleSlot :=
  d ← r_date s ≫= parseDate;
  a ← r_startTime s;
  b ← r_endTime s;
  n ← r_availableSpots s ≫= Plain.parseInt;
  Some (mkSlot d a b (Number.ofZ n)).

(** A stand-in for the Activity model on the plain bodies of the
    samples: whole-number prices, [isActive] true on creation. *)
Definition castActivity (b : RawActivity) : option Activity :=
  t ← r_title b;
  d ← r_description b;
  p ← r_price b ≫= Plain.parseInt;
  du ← r_duration b ≫= Plain.parseInt;
  c ← r_capacity b ≫= Plain.parseInt;
  l ← r_location b;
  sl ← r_schedule b ≫= mapM castSlot;
  Some (mkActivity t d (inject_Z p) du c l sl true).

Definition castField {A B} (f : A → option B) (v : option A)
    : option (option B) :=
  match v with
  | None => Some None
  | Some x => Some <$> f x
  end.

Definition castUpdate (b : RawActivity) : option ActivityPatch :=
  p ← castField Plain.parseInt (r_price b);
  du ← castField Plain.parseInt (r_duration b);
  c ← castField Plain.parseInt (r_capacity b);
  sl ← castField (mapM castSlot) (r_schedule b);
  Some (mkPatch (r_title b) (r_description b) (inject_Z <$> p) du c
          (r_location b) sl None).

Definition model : ActivityModel := Build_ActivityModel castActivity castUpdate.

(** A check that only knows the stand-in hashing of [Plain.services]. *)
Definition passwords : PasswordCheck :=
  Build_PasswordCheck (λ u p, bool_decide (password u = "hashed:" +:+ p)).

Definition surfForm : RawActivity :=
  {| r_title := Some "Surf class"; r_description := Some "Two hours on the waves";
     r_price := Some "35"; r_duration := Some "120"; r_capacity := Some "6";
     r_location := Some "South beach";
     r_schedule :=
       Some [mkRawSlot (Some "2026-05-01") (Some "10:00") (Some "12:00")
               (Some "6")] |}.

(** Counts at which Number arithmetic is not integer arithmetic: 2^54,
    2^53 and one half. *)
Definition hugeSlot : ScheduleSlot :=
  mkSlot 1777593600000 "07:30" "08:30" (Number.ofZ (2 ^ 54)).
Definition fullSlot : ScheduleSlot :=
  mkSlot 1777593600000 "07:30" "08:30" (Number.ofZ (2 ^ 53)).
Definition halfSlot : ScheduleSlot :=
  mkSlot 1777593600000 "07:30" "08:30" (S754_finite false 4503599627370496 (-53)).

(** The sample store with the kayak tour's slot replaced. *)
Definition withKayakSlot (slot : ScheduleSlot) : Store :=
  set_activities Sample.store0
    (<[2%N := set_schedule Sample.kayak [slot]]> (activities Sample.store0)).

(** Alice holds a pending booking of the kayak tour's slot, which has
    2^53 spots. *)
Definition storeFull : Store :=
  set_bookings (withKayakSlot fullSlot)
    (<[0%N := BookingRoutes.newBooking Sample.alice 2%N fullSlot
                (price Sample.kayak)]> ∅).

Definition adminLogin : RawLogin :=
  {| l_email := Some " Admin@example.com"; l_password := Some "secret1" |}.

(** A day of requests: two registrations and a repeated one, a new
    activity, bookings, a cancellation, a status update, an activity
    update and a deletion. *)
Definition calls : list Api.Call :=
  [Api.Register Plain.adminForm; Api.CreateActivity surfForm;
   Api.Book 0%N (Some 1%N); Api.Book 0%N (Some 3%N);
   Api.Register Plain.guestForm; Api.Book 1%N (Some 2%N);
   Api.CancelBooking 0%N 0%N; Api.SetStatus 1%N (Some "confirmed") (Some "paid");
   Api.UpdateActivity 2%N
     (mkRawActivity None None (Some "45") None None None None);
   Api.DeleteActivity 1%N; Api.Register Plain.adminForm].

Definition served (st : Store) : Store :=
  @Api.serveAll Plain.validator model Plain.services st calls.

End Sample2.

(** * Properties *)

(** ** Number arithmetic *)

(** Rounding to nearest does not depend on trailing zero bits of the
    mantissa, so the sum and the difference of two Numbers that are
    integers are the Number of the integer sum and difference; that one is
    exact up to 2^53. *)

Section NumberFacts.
Import Number.
Local Open Scope Z_scope.

Lemma iter_pos_iter {A} (f : A -> A) p x : SpecFloat.iter_pos f p x = Pos.iter f x p.
Proof.
  revert x. induction p as [p IH|p IH|]; intros x.
  - change (SpecFloat.iter_pos f p~1 x) with (SpecFloat.iter_pos f p (SpecFloat.iter_pos f p (f x))).
    change (Pos.iter f x p~1) with (f (Pos.iter f (Pos.iter f x p) p)).
    rewrite !IH. now rewrite !Pos.iter_swap.
  - change (SpecFloat.iter_pos f p~0 x) with (SpecFloat.iter_pos f p (SpecFloat.iter_pos f p x)).
    change (Pos.iter f x p~0) with (Pos.iter f (Pos.iter f x p) p).
    now rewrite !IH.
  - reflexivity.
Qed.

Lemma iter_xO (m d : positive) : Zpos (Pos.iter xO m d) = Zpos m * 2 ^ Zpos d.
Proof.
  induction d as [|d IH] using Pos.peano_ind.
  - cbn. lia.
  - rewrite Pos.iter_succ, Pos2Z.inj_xO, IH, Pos2Z.inj_succ, Z.pow_succ_r by lia. lia.
Qed.

Lemma digits_xO (m d : positive) :
  Zpos (digits2_pos (Pos.iter xO m d)) = Zpos (digits2_pos m) + Zpos d.
Proof.
  induction d as [|d IH] using Pos.peano_ind.
  - cbn. lia.
  - rewrite Pos.iter_succ. cbn [digits2_pos]. rewrite Pos2Z.inj_succ, IH. lia.
Qed.

Lemma fexp_eq e : fexp prec emax e = Z.max (e - 53) (-1074).
Proof. reflexivity. Qed.

(** Normal form is closed under one trailing zero bit. *)
Lemma binary_round_xO s m e :
  binary_round prec emax s (xO m) (e - 1) = binary_round prec emax s m e.
Proof.
  unfold binary_round. cbn [digits2_pos]. rewrite Pos2Z.inj_succ.
  replace (Z.succ (Zpos (digits2_pos m)) + (e - 1)) with (Zpos (digits2_pos m) + e) by lia.
  set (t := fexp prec emax (Zpos (digits2_pos m) + e)).
  unfold shl_align.
  destruct (t - (e - 1)) as [|p|d'] eqn:H1.
  - assert (t - e = Zneg 1) as -> by lia. cbn [Pos.iter]. f_equal. 
    replace t with (e - 1) by lia. reflexivity.
  - destruct (t - e) as [|q|q] eqn:H2; try lia.
    + (* p = 1 *)
      assert (p = 1%positive) as -> by lia.
      unfold binary_round_aux, shr_fexp. cbn [Zdigits2 digits2_pos].
      rewrite Pos2Z.inj_succ.
      replace (Z.succ (Zpos (digits2_pos m)) + (e - 1)) with (Zpos (digits2_pos m) + e) by lia.
      fold t. rewrite H1, H2. cbn [shr shr_record_of_loc SpecFloat.iter_pos shr_1 orb].
      replace (e - 1 + 1) with e by lia. reflexivity.
    + assert (p = Pos.succ q) as -> by lia.
      unfold binary_round_aux, shr_fexp. cbn [Zdigits2 digits2_pos].
      rewrite Pos2Z.inj_succ.
      replace (Z.succ (Zpos (digits2_pos m)) + (e - 1)) with (Zpos (digits2_pos m) + e) by lia.
      fold t. rewrite H1, H2. cbn [shr shr_record_of_loc].
      rewrite !iter_pos_iter, Pos.iter_succ_r. cbn [shr_1 orb].
      replace (e - 1 + Zpos (Pos.succ q)) with (e + Zpos q) by lia. reflexivity.
  - assert (t - e = Zneg (Pos.succ d')) as -> by lia.
    rewrite Pos.iter_succ_r. reflexivity.
Qed.

Lemma binary_round_shift s m e (d : positive) :
  binary_round prec emax s (Pos.iter xO m d) (e - Zpos d) = binary_round prec emax s m e.
Proof.
  revert e. induction d as [|d IH] using Pos.peano_ind; intros e.
  - apply binary_round_xO.
  - rewrite Pos.iter_succ, Pos2Z.inj_succ.
    replace (e - Z.succ (Zpos d)) with (e - Zpos d - 1) by lia.
    rewrite binary_round_xO. apply IH.
Qed.

Lemma binary_normalize_shift a e j :
  0 <= j ->
  binary_normalize prec emax (a * 2 ^ j) (e - j) false = binary_normalize prec emax a e false.
Proof.
  intros Hj. destruct j as [|d|d]; try lia.
  - rewrite Z.pow_0_r, Z.mul_1_r, Z.sub_0_r. reflexivity.
  - destruct a as [|m|m].
    + reflexivity.
    + rewrite <- iter_xO. cbn [binary_normalize]. apply binary_round_shift.
    + change (Zneg m) with (- Zpos m). rewrite Z.mul_opp_l, <- iter_xO.
      cbn [Z.opp binary_normalize]. apply binary_round_shift.
Qed.

Lemma binary_round_canonical s m e :
  bounded prec emax m e = true -> binary_round prec emax s m e = S754_finite s m e.
Proof.
  unfold bounded, canonical_mantissa. intros H.
  apply andb_prop in H as [Hc Hb]. apply Z.eqb_eq in Hc.
  unfold binary_round. rewrite Hc. unfold shl_align. rewrite Z.sub_diag.
  unfold binary_round_aux, shr_fexp. cbn [Zdigits2]. rewrite Hc, Z.sub_diag.
  cbn [shr shr_record_of_loc loc_of_shr_record round_nearest_even shr_m Zdigits2].
  rewrite Hc, Z.sub_diag. cbn [shr shr_m]. now rewrite Hb.
Qed.

Lemma Some_eq {A} (a b : A) : Some a = Some b -> a = b.
Proof. congruence. Qed.

Lemma digits2_bounds (p : positive) :
  2 ^ (Zpos (digits2_pos p) - 1) <= Zpos p < 2 ^ Zpos (digits2_pos p).
Proof.
  induction p as [p IH|p IH|]; cbn [digits2_pos]; [| |cbn; lia].
  all: rewrite Pos2Z.inj_succ; replace (Z.succ (Zpos (digits2_pos p)) - 1)
         with (Z.succ (Zpos (digits2_pos p) - 1)) by lia;
       rewrite !Z.pow_succ_r by lia; lia.
Qed.

Lemma valueZ_finite_nonneg_exp s m e :
  0 <= e -> valueZ (S754_finite s m e) = Some (cond_Zopp s (Zpos m * 2 ^ e)).
Proof. intros He. cbn. destruct (Z.leb_spec 0 e); [reflexivity | lia]. Qed.

Lemma valueZ_finite_shifted s k (j : Z) :
  0 < j -> 0 < k ->
  forall m, Zpos m = k * 2 ^ j ->
  valueZ (S754_finite s m (- j)) = Some (cond_Zopp s k).
Proof.
  intros Hj Hk m Hm. cbn [valueZ]. destruct (Z.leb_spec 0 (- j)); [lia|].
  rewrite Z.opp_involutive, Hm, Z.mod_mul, Z.div_mul by lia. reflexivity.
Qed.

(** Rounding an integer of at most 53 bits changes nothing. *)
Lemma binary_round_exact s (p : positive) :
  Zpos p <= 2 ^ 53 ->
  exists m e, binary_round prec emax s p 0 = S754_finite s m e /\
    valueZ (S754_finite s m e) = Some (cond_Zopp s (Zpos p)).
Proof.
  intros Hp.
  destruct (Z.eq_dec (Zpos p) (2 ^ 53)) as [->%Pos2Z.inj|Hne].
  { destruct s; eexists _, _; split; vm_compute; reflexivity. }
  pose proof (digits2_bounds p) as [Hlo Hhi].
  assert (Zpos (digits2_pos p) <= 53) as Hd.
  { destruct (Z.le_gt_cases (Zpos (digits2_pos p)) 53) as [|Hgt]; [done|].
    assert (2 ^ 53 <= 2 ^ (Zpos (digits2_pos p) - 1)) by (apply Z.pow_le_mono_r; lia).
    lia. }
  destruct (Z.eq_dec (Zpos (digits2_pos p)) 53) as [Heq|Hlt].
  - exists p, 0. split.
    + apply binary_round_canonical. unfold bounded, canonical_mantissa.
      rewrite fexp_eq, Z.add_0_r, Heq. reflexivity.
    + rewrite valueZ_finite_nonneg_exp by lia. f_equal. f_equal. lia.
  - remember (Z.to_pos (53 - Zpos (digits2_pos p))) as d eqn:Hd'.
    assert (Zpos d = 53 - Zpos (digits2_pos p)) as Hdz by lia.
    exists (Pos.iter xO p d), (- Zpos d). split.
    + rewrite <- (binary_round_shift s p 0 d).
      apply binary_round_canonical. unfold bounded, canonical_mantissa.
      rewrite digits_xO, fexp_eq.
      replace (Zpos (digits2_pos p) + Zpos d + (0 - Zpos d)) with (Zpos (digits2_pos p)) by lia.
      apply andb_true_intro. split; [apply Z.eqb_eq | apply Z.leb_le]; unfold emax, prec; lia.
    + apply (valueZ_finite_shifted s (Zpos p) (Zpos d)); [lia | lia |].
      apply iter_xO.
Qed.

(** The Number of an integer up to 2^53 has exactly that value. *)
Lemma ofZ_pos_exact (p : positive) :
  Zpos p <= 2 ^ 53 ->
  exists m e, ofZ (Zpos p) = S754_finite false m e /\
    valueZ (S754_finite false m e) = Some (Zpos p).
Proof. apply (binary_round_exact false). Qed.

Lemma ofZ_exact k : - 2 ^ 53 <= k <= 2 ^ 53 -> valueZ (ofZ k) = Some k.
Proof.
  intros [Hk0 Hk]. destruct k as [|p|p]; [reflexivity | |].
  - destruct (ofZ_pos_exact p Hk) as (m & e & -> & Hv). exact Hv.
  - destruct (binary_round_exact true p) as (m & e & Hr & Hv); [lia|].
    unfold ofZ. cbn [binary_normalize]. rewrite Hr. exact Hv.
Qed.

Lemma shl_align_fst m e ez :
  ez <= e -> Zpos (fst (shl_align m e ez)) = Zpos m * 2 ^ (e - ez).
Proof.
  intros He. unfold shl_align. destruct (ez - e) as [|d|d] eqn:Hd; try lia.
  - replace (e - ez) with 0 by lia. cbn [fst]. lia.
  - cbn [fst]. rewrite iter_xO. f_equal. f_equal. lia.
Qed.

(** A finite positive Number with an integer value, scaled to a smaller
    exponent. *)
Lemma valueZ_scaled m e n ez :
  valueZ (S754_finite false m e) = Some n -> ez <= e -> ez <= 0 ->
  Zpos m * 2 ^ (e - ez) = n * 2 ^ (- ez).
Proof.
  unfold valueZ, cond_Zopp. intros Hv He Hz.
  destruct (Z.leb_spec 0 e) as [H0|H0].
  - apply Some_eq in Hv. subst n. rewrite <- Z.mul_assoc, <- Z.pow_add_r by lia.
    replace (e + - ez) with (e - ez) by lia. reflexivity.
  - destruct (Z.eqb_spec (Zpos m mod 2 ^ (- e)) 0) as [Hm|]; [|discriminate].
    apply Some_eq in Hv. subst n.
    assert (Zpos m = Zpos m / 2 ^ (- e) * 2 ^ (- e)) as Hdiv.
    { rewrite (Z.div_mod (Zpos m) (2 ^ (- e))) at 1 by lia. lia. }
    set (k := Zpos m / 2 ^ (- e)) in *. rewrite Hdiv.
    rewrite <- Z.mul_assoc, <- Z.pow_add_r by lia.
    replace (- e + (e - ez)) with (- ez) by lia. reflexivity.
Qed.

Lemma valueZ_finite_sign s m e n :
  valueZ (S754_finite s m e) = Some n ->
  valueZ (S754_finite false m e) = Some (cond_Zopp s n).
Proof.
  unfold valueZ. destruct (0 <=? e); [|destruct (_ =? 0); [|discriminate]];
    intros Hv; apply Some_eq in Hv; subst n; f_equal; destruct s; cbn [cond_Zopp]; lia.
Qed.

Lemma cond_Zopp_mul s a b : cond_Zopp s (a * b) = cond_Zopp s a * b.
Proof. destruct s; cbn [cond_Zopp]; lia. Qed.

Lemma valueZ_scaled_signed s m e n ez :
  valueZ (S754_finite s m e) = Some n -> ez <= e -> ez <= 0 ->
  cond_Zopp s (Zpos m * 2 ^ (e - ez)) = n * 2 ^ (- ez).
Proof.
  intros Hv He Hz. apply valueZ_finite_sign in Hv.
  rewrite (valueZ_scaled m e _ ez Hv He Hz). destruct s; cbn [cond_Zopp]; lia.
Qed.

Lemma valueZ_finite_pos m e n : valueZ (S754_finite false m e) = Some n -> 0 < n.
Proof.
  unfold valueZ, cond_Zopp. destruct (Z.leb_spec 0 e) as [H0|H0].
  - intros Hv. apply Some_eq in Hv. subst n. lia.
  - destruct (Z.eqb_spec (Zpos m mod 2 ^ (- e)) 0) as [Hm|]; [|discriminate].
    intros Hv. apply Some_eq in Hv. subst n.
    assert (Zpos m = Zpos m / 2 ^ (- e) * 2 ^ (- e)) as Hdiv.
    { rewrite (Z.div_mod (Zpos m) (2 ^ (- e))) at 1 by lia. lia. }
    assert (0 < 2 ^ (- e)) by lia. nia.
Qed.

Lemma sub_finite mx ex my ey n q :
  valueZ (S754_finite false mx ex) = Some n ->
  valueZ (S754_finite false my ey) = Some q ->
  sub (S754_finite false mx ex) (S754_finite false my ey) = ofZ (n - q).
Proof.
  intros Hn Hq. unfold sub, SFsub, ofZ. cbn [cond_Zopp].
  set (ez := Z.min ex ey).
  rewrite !shl_align_fst by lia.
  destruct (Z.le_gt_cases ez 0) as [Hz|Hz].
  - rewrite (valueZ_scaled mx ex n ez Hn), (valueZ_scaled my ey q ez Hq) by lia.
    rewrite <- Z.mul_sub_distr_r.
    rewrite <- (binary_normalize_shift (n - q) 0 (- ez)) by lia.
    f_equal. lia.
  - rewrite valueZ_finite_nonneg_exp in Hn, Hq by lia. cbn [cond_Zopp] in Hn, Hq.
    apply Some_eq in Hn, Hq. subst n q.
    rewrite <- (binary_normalize_shift _ ez ez) by lia. rewrite Z.sub_diag.
    f_equal. rewrite Z.mul_sub_distr_r, <- !Z.mul_assoc, <- !Z.pow_add_r by lia.
    f_equal; f_equal; f_equal; lia.
Qed.

Lemma add_finite sx mx ex sy my ey n q :
  valueZ (S754_finite sx mx ex) = Some n ->
  valueZ (S754_finite sy my ey) = Some q ->
  add (S754_finite sx mx ex) (S754_finite sy my ey) = ofZ (n + q).
Proof.
  intros Hn Hq. unfold add, SFadd, ofZ.
  set (ez := Z.min ex ey).
  rewrite !shl_align_fst by lia.
  destruct (Z.le_gt_cases ez 0) as [Hz|Hz].
  - rewrite (valueZ_scaled_signed sx mx ex n ez Hn),
      (valueZ_scaled_signed sy my ey q ez Hq) by lia.
    rewrite <- Z.mul_add_distr_r.
    rewrite <- (binary_normalize_shift (n + q) 0 (- ez)) by lia.
    f_equal. lia.
  - rewrite valueZ_finite_nonneg_exp in Hn, Hq by lia.
    apply Some_eq in Hn, Hq. subst n q.
    rewrite <- (binary_normalize_shift _ ez ez) by lia. rewrite Z.sub_diag.
    f_equal. rewrite Z.mul_add_distr_r, <- !cond_Zopp_mul.
    rewrite <- !Z.mul_assoc, <- !Z.pow_add_r by lia.
    f_equal; f_equal; f_equal; f_equal; lia.
Qed.

Lemma shr_1_nonneg mrs : 0 <= shr_m mrs -> 0 <= shr_m (shr_1 mrs).
Proof. destruct mrs as [[|[p|p|]|p] r s]; cbn; lia. Qed.

Lemma shr_nonneg mrs e n :
  0 <= shr_m mrs -> 0 <= shr_m (fst (shr mrs e n)) /\ e <= snd (shr mrs e n).
Proof.
  intros Hm. destruct n as [|p|p]; cbn [shr fst snd]; [lia| |lia].
  split; [|lia]. rewrite iter_pos_iter.
  apply Pos.iter_invariant; [apply shr_1_nonneg | exact Hm].
Qed.

Lemma shr_fexp_nonneg m e l :
  0 <= m ->
  0 <= shr_m (fst (shr_fexp prec emax m e l)) /\ e <= snd (shr_fexp prec emax m e l).
Proof.
  intros Hm. unfold shr_fexp. apply shr_nonneg. now destruct l as [|[]].
Qed.

Lemma round_nearest_even_nonneg m l : 0 <= m -> 0 <= round_nearest_even m l.
Proof.
  intros Hm. destruct l as [|[]]; cbn [round_nearest_even]; try lia.
  destruct (Z.even m); lia.
Qed.

Lemma isCount_finite m e : 0 <= e -> isCount (S754_finite false m e).
Proof.
  intros He. unfold isCount. rewrite valueZ_finite_nonneg_exp by done.
  unfold cond_Zopp. lia.
Qed.

Lemma binary_round_aux_count m e l :
  0 <= m -> 0 <= e -> countOrInfinity (binary_round_aux prec emax false m e l).
Proof.
  intros Hm He. unfold binary_round_aux.
  pose proof (shr_fexp_nonneg m e l Hm) as [Hm1 He1].
  destruct (shr_fexp prec emax m e l) as [mrs1 e1]. cbn [fst snd] in Hm1, He1.
  pose proof (round_nearest_even_nonneg (shr_m mrs1) (loc_of_shr_record mrs1) Hm1) as Hr.
  pose proof (shr_fexp_nonneg _ e1 loc_Exact Hr) as [Hm2 He2].
  destruct (shr_fexp prec emax _ e1 loc_Exact) as [mrs2 e2]. cbn [fst snd] in Hm2, He2.
  destruct (shr_m mrs2) as [|p|p]; [by left | | lia].
  destruct (e2 <=? emax - prec); [left; apply isCount_finite; lia | by right].
Qed.

(** Converting a non-negative integer gives a non-negative integer, or
    infinity when it is out of range. *)
Lemma ofZ_count k : 0 <= k -> countOrInfinity (ofZ k).
Proof.
  intros Hk. destruct (Z.le_gt_cases k (2 ^ 53)) as [Hle|Hgt].
  - left. unfold isCount. rewrite ofZ_exact by lia. done.
  - destruct k as [|p|p]; try lia. unfold ofZ. cbn [binary_normalize].
    unfold binary_round.
    pose proof (digits2_bounds p) as [Hlo Hhi].
    assert (54 <= Zpos (digits2_pos p)) as Hd.
    { destruct (Z.le_gt_cases 54 (Zpos (digits2_pos p))) as [|Hlt]; [done|].
      assert (2 ^ Zpos (digits2_pos p) <= 2 ^ 53) by (apply Z.pow_le_mono_r; lia).
      lia. }
    rewrite Z.add_0_r, fexp_eq. unfold shl_align.
    destruct (Z.max (Zpos (digits2_pos p) - 53) (-1074) - 0) as [|d|d] eqn:Ht; try lia.
    apply binary_round_aux_count; lia.
Qed.

Lemma isCount_sign s m e : isCount (S754_finite s m e) -> s = false.
Proof.
  destruct s; [|done]. unfold isCount, valueZ, cond_Zopp.
  destruct (Z.leb_spec 0 e) as [H0|H0].
  - assert (0 < 2 ^ e) by lia. nia.
  - destruct (Z.eqb_spec (Zpos m mod 2 ^ (- e)) 0) as [Hm|]; [|done].
    intros Hn.
    assert (Zpos m = Zpos m / 2 ^ (- e) * 2 ^ (- e)) as Hdiv.
    { rewrite (Z.div_mod (Zpos m) (2 ^ (- e))) at 1 by lia. lia. }
    assert (0 < 2 ^ (- e)) by lia. nia.
Qed.

Lemma lt_zero_iff x :
  Number.lt zero x <-> x = infinity \/ exists m e, x = S754_finite false m e.
Proof.
  unfold Number.lt. destruct x as [s|[]| |[] m e]; cbn; split; try done;
    try (intros [|(? & ? & ?)]; done); eauto.
Qed.

Lemma le_zero_count x : countOrInfinity x -> Number.le zero x.
Proof.
  intros [Hc | ->]; [|done]. destruct x as [s|s| |s m e]; try done.
  apply isCount_sign in Hc as ->. done.
Qed.

(** Taking one from a positive integer count. *)
Lemma sub_one_value x n :
  valueZ x = Some n -> Number.lt zero x -> 1 <= n /\ sub x one = ofZ (n - 1).
Proof.
  intros Hv Hpos. apply lt_zero_iff in Hpos as [-> | (m & e & ->)]; [done|].
  split; [pose proof (valueZ_finite_pos m e n Hv); lia|].
  change one with (S754_finite false 4503599627370496 (-52)).
  apply sub_finite; [done | reflexivity].
Qed.

Lemma sub_one_count x :
  countOrInfinity x -> Number.lt zero x -> countOrInfinity (sub x one).
Proof.
  intros [Hc | ->] Hpos; [|by right].
  unfold isCount in Hc. destruct (valueZ x) as [n|] eqn:Hv; [|done].
  destruct (sub_one_value x n Hv Hpos) as [Hn ->]. apply ofZ_count. lia.
Qed.

Lemma add_count x y :
  countOrInfinity x -> countOrInfinity y -> countOrInfinity (add x y).
Proof.
  intros [Hx | ->] [Hy | ->].
  - destruct x as [sx|sx| |sx mx ex], y as [sy|sy| |sy my ey]; try done.
    + left. by destruct sx, sy.
    + by left.
    + by left.
    + pose proof (isCount_sign _ _ _ Hx) as ->.
      pose proof (isCount_sign _ _ _ Hy) as ->.
      unfold isCount in Hx, Hy.
      destruct (valueZ (S754_finite false mx ex)) as [n|] eqn:Hn; [|done].
      destruct (valueZ (S754_finite false my ey)) as [q|] eqn:Hq; [|done].
      rewrite (add_finite false mx ex false my ey n q Hn Hq). apply ofZ_count. lia.
  - right. by destruct x as [sx|sx| |sx mx ex].
  - right. by destruct y as [sy|[]| |sy my ey].
  - by right.
Qed.

(** Adding to an integer count, exactly. *)
Lemma add_exact x n p :
  valueZ x = Some n -> - 2 ^ 53 <= n -> 0 <= p <= 2 ^ 53 -> n + p <= 2 ^ 53 ->
  valueZ (add x (ofZ p)) = Some (n + p).
Proof.
  intros Hv Hn Hp Hsum.
  destruct p as [|p|p]; [| |lia].
  - change (ofZ 0) with (S754_zero false). rewrite Z.add_0_r.
    destruct x as [sx|sx| |sx mx ex]; try done. by destruct sx.
  - destruct (ofZ_pos_exact p) as (mp & ep & Hof & Hvp); [lia|]. rewrite Hof.
    destruct x as [sx|sx| |sx mx ex]; try done.
    + apply Some_eq in Hv. subst n. exact Hvp.
    + rewrite (add_finite sx mx ex false mp ep n (Zpos p) Hv Hvp).
      apply ofZ_exact. lia.
Qed.

Lemma sub_one_exact x n :
  valueZ x = Some n -> Number.lt zero x -> n <= 2 ^ 53 + 1 ->
  valueZ (sub x one) = Some (n - 1).
Proof.
  intros Hv Hpos Hn. destruct (sub_one_value x n Hv Hpos) as [H1 ->].
  apply ofZ_exact. lia.
Qed.

Lemma valueZ_pos_lt x n : valueZ x = Some n -> 0 < n -> Number.lt zero x.
Proof.
  intros Hv Hn. destruct x as [s|s| |s m e]; try done.
  - apply Some_eq in Hv. lia.
  - destruct s; [|done]. apply valueZ_finite_sign in Hv.
    apply valueZ_finite_pos in Hv. cbn [cond_Zopp] in Hv. lia.
Qed.

(** On the Numbers of integers up to 2^53 the arithmetic is that of the
    integers. *)
Lemma lt_zero_ofZ n : 0 <= n <= 2 ^ 53 -> Number.lt zero (ofZ n) <-> 0 < n.
Proof.
  intros Hn. destruct n as [|p|p]; [done | | lia].
  destruct (ofZ_pos_exact p) as (m & e & -> & _); [lia|]. done.
Qed.

Lemma sub_ofZ_one n : 1 <= n <= 2 ^ 53 -> sub (ofZ n) one = ofZ (n - 1).
Proof.
  intros Hn. apply sub_one_value; [apply ofZ_exact | apply lt_zero_ofZ]; lia.
Qed.

Lemma add_ofZ n p :
  0 <= n <= 2 ^ 53 -> 0 <= p <= 2 ^ 53 -> add (ofZ n) (ofZ p) = ofZ (n + p).
Proof.
  intros Hn Hp. destruct n as [|n|n]; [| |lia].
  - destruct p as [|p|p]; [done | | lia].
    rewrite Z.add_0_l.
    destruct (ofZ_pos_exact p) as (m & e & -> & _); [lia | done].
  - destruct (ofZ_pos_exact n) as (mn & en & Hofn & Hvn); [lia|].
    destruct p as [|p|p]; [| |lia].
    + rewrite Z.add_0_r, Hofn. done.
    + destruct (ofZ_pos_exact p) as (mp & ep & Hofp & Hvp); [lia|].
      rewrite Hofn, Hofp. by apply add_finite.
Qed.

End NumberFacts.

(** Where the integers and the Numbers part: 2^53 + 1 and 2^54 - 1 are
    not Numbers, and 2^53 + 1 rounds down from 2^53 + 2. *)
Example rounding_samples :
  Number.add (Number.ofZ (2 ^ 53)) Number.one = Number.ofZ (2 ^ 53) ∧
  Number.sub (Number.ofZ (2 ^ 54)) Number.one = Number.ofZ (2 ^ 54) ∧
  Number.valueZ (Number.sub (Number.ofZ (2 ^ 53 + 2)) Number.one)
    = Some (2 ^ 53) ∧
  Number.valueZ (Number.sub (Number.ofZ (2 ^ 53)) Number.one)
    = Some (2 ^ 53 - 1).
Proof. repeat split; vm_compute; reflexivity. Qed.

Import BookingRoutes.

(** ** Reserve: the shape of its outcomes *)

Section ReserveFacts.
Implicit Types (st : Store) (act : Activity) (slot : ScheduleSlot).

Lemma findOneActive_Some st aid act :
  findOneActive st aid = Some act ↔
  activities st !! aid = Some act ∧ isActive act = true.
Proof.
  unfold findOneActive. destruct (activities st !! aid) as [a|].
  - destruct (isActive a) eqn:E; split.
    + intros [= <-]. done.
    + intros [[= ->] _]. done.
    + done.
    + intros [[= ->] ?]. congruence.
  - split; [done | intros [? _]; done].
Qed.

Lemma findOneActive_None st aid :
  findOneActive st aid = None ↔
  activities st !! aid = None ∨
  ∃ act, activities st !! aid = Some act ∧ isActive act = false.
Proof.
  unfold findOneActive. destruct (activities st !! aid) as [a|].
  - destruct (isActive a) eqn:E; split.
    + done.
    + intros [? | (act & [= <-] & ?)]; [done | congruence].
    + intros _. right. by exists a.
    + done.
  - split; [by left | done].
Qed.

Lemma createBooking_booked st userId aid act i slot :
  activities st !! aid = Some act → isActive act = true →
  list_find hasSpots (schedule act) = Some (i, slot) →
  createBooking st userId (Some aid) =
    ((201, JBooked "Activity booked successfully" (fresh (dom (bookings st)))
             (newBooking userId aid slot (price act))),
     reserved st userId aid act i slot).
Proof.
  intros Hact Hon Hfind. unfold createBooking.
  rewrite (proj2 (findOneActive_Some st aid act) (conj Hact Hon)), Hfind.
  reflexivity.
Qed.

Lemma createBooking_201 st userId activityId r st' :
  createBooking st userId activityId = (r, st') → code r = 201 →
  ∃ aid act i slot,
    activityId = Some aid ∧ activities st !! aid = Some act ∧
    isActive act = true ∧
    list_find hasSpots (schedule act) = Some (i, slot) ∧
    r = (201, JBooked "Activity booked successfully"
                (fresh (dom (bookings st)))
                (newBooking userId aid slot (price act))) ∧
    st' = reserved st userId aid act i slot.
Proof.
  unfold createBooking. intros Hrun Hcode.
  destruct activityId as [aid|]; [|by simplify_eq].
  destruct (findOneActive st aid) as [act|] eqn:Hact; [|by simplify_eq].
  apply findOneActive_Some in Hact as [Hact Hon].
  destruct (list_find hasSpots (schedule act)) as [[i slot]|] eqn:Hfind;
    [|by simplify_eq].
  simplify_eq. by exists aid, act, i, slot.
Qed.

Lemma fresh_booking_id st : bookings st !! fresh (dom (bookings st)) = None.
Proof. apply not_elem_of_dom, is_fresh. Qed.

End ReserveFacts.

(** ** Reserve: the slot it books *)

(** Claim C1, as stated, fails at large counts.  The kayak tour's only
    slot holds 2^54 spots.  The reservation is answered 201 and the slot
    holds 2^54 spots as before: 2^54 - 1 is not a Number and the
    subtraction rounds to 2^54. *)
Lemma reserve_keeps_huge_count :
  ∃ r st' act',
    valid_binary Number.prec Number.emax (availableSpots Sample2.hugeSlot) = true ∧
    Number.valueZ (availableSpots Sample2.hugeSlot) = Some (2 ^ 54) ∧
    activities (Sample2.withKayakSlot Sample2.hugeSlot) !! 2%N
      = Some (set_schedule Sample.kayak [Sample2.hugeSlot]) ∧
    createBooking (Sample2.withKayakSlot Sample2.hugeSlot) Sample.alice (Some 2%N)
      = (r, st') ∧
    code r = 201 ∧
    activities st' !! 2%N = Some act' ∧
    schedule act' = [Sample2.hugeSlot].
Proof.
  eexists _, _, _. split; [reflexivity|]. split; [reflexivity|].
  split; [reflexivity|]. split; [reflexivity|]. split; [reflexivity|].
  split; [reflexivity|]. vm_compute. reflexivity.
Qed.

(** Claim C1, amended.  A reservation answered 201 chooses the slot at the
    least index whose [availableSpots] is positive, stores a booking with
    that slot's date and times, and replaces the slot's count by the Number
    [availableSpots - 1]: exactly one less when the count is an integer up
    to 2^53.  The slot keeps its date and times; every other slot of the
    activity, every other field of the activity, every other activity,
    every other booking and the users are as before.  And on an active
    activity whose schedule is a single slot with one spot left, a first
    request is answered 201 and leaves the slot at 0, and a second request
    is answered 400 "No available slots" and changes nothing. *)
Theorem reserve_decrements_chosen_slot (st : Store) (userId : ObjectId) :
  (∀ activityId r st',
     createBooking st userId activityId = (r, st') → code r = 201 →
     ∃ aid act act' i slot slot' bid booking,
       activityId = Some aid ∧
       activities st !! aid = Some act ∧ activities st' !! aid = Some act' ∧
       schedule act !! i = Some slot ∧
       Number.lt Number.zero (availableSpots slot) ∧
       (∀ j s, schedule act !! j = Some s → (j < i)%nat →
          ¬ Number.lt Number.zero (availableSpots s)) ∧
       r = (201, JBooked "Activity booked successfully" bid booking) ∧
       bookings st !! bid = None ∧ bookings st' !! bid = Some booking ∧
       (∀ k, k ≠ bid → bookings st' !! k = bookings st !! k) ∧
       user booking = userId ∧ activity booking = aid ∧
       bdate (bschedule booking) = date slot ∧
       bstartTime (bschedule booking) = startTime slot ∧
       bendTime (bschedule booking) = endTime slot ∧
       schedule act' !! i = Some slot' ∧
       availableSpots slot' = Number.sub (availableSpots slot) Number.one ∧
       (∀ n, Number.valueZ (availableSpots slot) = Some n → n <= 2 ^ 53 →
          Number.valueZ (availableSpots slot') = Some (n - 1)) ∧
       date slot' = date slot ∧ startTime slot' = startTime slot ∧
       endTime slot' = endTime slot ∧
       length (schedule act') = length (schedule act) ∧
       (∀ j, j ≠ i → schedule act' !! j = schedule act !! j) ∧
       title act' = title act ∧ description act' = description act ∧
       price act' = price act ∧ duration act' = duration act ∧
       capacity act' = capacity act ∧ location act' = location act ∧
       isActive act' = isActive act ∧
       (∀ id, id ≠ aid → activities st' !! id = activities st !! id) ∧
       users st' = users st) ∧
  (∀ aid act slot userId2,
     activities st !! aid = Some act → isActive act = true →
     schedule act = [slot] → Number.valueZ (availableSpots slot) = Some 1 →
     ∃ r1 st1 act1 slot1,
       createBooking st userId (Some aid) = (r1, st1) ∧ code r1 = 201 ∧
       activities st1 !! aid = Some act1 ∧ schedule act1 = [slot1] ∧
       availableSpots slot1 = Number.ofZ 0 ∧
       createBooking st1 userId2 (Some aid) = (NoAvailability, st1) ∧
       code NoAvailability = 400).
Proof.
  split.
  - intros activityId r st' Hrun Hcode.
    destruct (createBooking_201 _ _ _ _ _ Hrun Hcode)
      as (aid & act & i & slot & -> & Hact & _ & Hfind & -> & ->).
    apply list_find_Some in Hfind as (Hi & Hpos & Hbefore).
    pose proof (lookup_lt_Some _ _ _ Hi) as Hlt.
    eexists aid, act, _, i, slot, _, _, _. split; [done|]. split; [done|].
    split; [apply lookup_insert_eq|]. cbn [schedule set_schedule].
    split; [done|]. split; [exact Hpos|]. split; [exact Hbefore|].
    split; [reflexivity|]. split; [apply fresh_booking_id|].
    cbn [bookings set_bookings set_activities reserved].
    split; [apply lookup_insert_eq|].
    split; [intros k Hk; by rewrite lookup_insert_ne|].
    repeat (split; [done|]).
    split; [by apply list_lookup_insert_eq|].
    split; [done|].
    split.
    { intros n Hn Hle. cbn [availableSpots set_availableSpots].
      apply sub_one_exact; [done | exact Hpos | lia]. }
    repeat (split; [done|]).
    split; [apply length_insert|].
    split; [intros j Hj; by apply list_lookup_insert_ne|].
    repeat (split; [done|]).
    split; [|done]. intros id Hid. cbn. by rewrite lookup_insert_ne.
  - intros aid act slot userId2 Hact Hon Hsched Hone.
    assert (list_find hasSpots (schedule act) = Some (0%nat, slot)) as Hfind.
    { rewrite Hsched. cbn. rewrite decide_True; [done|].
      unfold hasSpots. by apply (valueZ_pos_lt _ 1). }
    assert (Number.sub (availableSpots slot) Number.one = Number.ofZ 0) as Hzero.
    { apply (sub_one_value _ 1); [done | by apply (valueZ_pos_lt _ 1)]. }
    eexists _, _, _, _.
    split; [by apply createBooking_booked|]. split; [done|].
    split; [apply lookup_insert_eq|]. cbn [schedule set_schedule].
    rewrite Hsched. split; [done|].
    split; [exact Hzero|]. split; [|done].
    unfold createBooking, findOneActive, reserved.
    cbn [activities set_activities set_bookings].
    rewrite lookup_insert_eq. cbn [isActive set_schedule schedule].
    rewrite Hon, Hsched, Hzero. cbn.
    rewrite decide_False; [done|]. unfold hasSpots. by cbn.
Qed.

(** Claim C2.  On a stored, active activity with some slot that has
    [availableSpots > 0], a reservation is answered 201; the slot it books
    is the one at the least index whose [availableSpots] is positive,
    whatever the dates of the slots are, and the booking it stores copies
    that slot's date, start time and end time. *)
Theorem reserve_books_first_available_slot
    (st : Store) (userId aid : ObjectId) (act : Activity) :
  activities st !! aid = Some act → isActive act = true →
  (∃ s, s ∈ schedule act ∧ Number.lt Number.zero (availableSpots s)) →
  ∃ i slot bid booking st',
    schedule act !! i = Some slot ∧ Number.lt Number.zero (availableSpots slot) ∧
    (∀ j s, schedule act !! j = Some s → (j < i)%nat →
       ¬ Number.lt Number.zero (availableSpots s)) ∧
    createBooking st userId (Some aid) =
      ((201, JBooked "Activity booked successfully" bid booking), st') ∧
    bookings st !! bid = None ∧ bookings st' !! bid = Some booking ∧
    user booking = userId ∧ activity booking = aid ∧
    bdate (bschedule booking) = date slot ∧
    bstartTime (bschedule booking) = startTime slot ∧
    bendTime (bschedule booking) = endTime slot ∧
    ∃ act', activities st' !! aid = Some act' ∧
      schedule act' !! i =
        Some (set_availableSpots slot
                (Number.sub (availableSpots slot) Number.one)).
Proof.
  intros Hact Hon (s & Hs & Hpos).
  destruct (list_find_elem_of hasSpots (schedule act) s Hs Hpos)
    as [[i slot] Hfind].
  pose proof Hfind as Hfirst.
  apply list_find_Some in Hfirst as (Hi & Hslot & Hbefore).
  eexists i, slot, _, _, _. split; [done|]. split; [done|].
  split; [exact Hbefore|].
  split; [by apply createBooking_booked|].
  split; [apply fresh_booking_id|]. cbn.
  split; [apply lookup_insert_eq|]. repeat (split; [done|]).
  eexists. split; [apply lookup_insert_eq|]. cbn.
  apply list_lookup_insert_eq. by eapply lookup_lt_Some.
Qed.

Lemma reserve_decrements_chosen_slot_witness :
  (∃ r st' bid booking act' slot',
     createBooking Sample.store0 Sample.alice (Some 1%N) = (r, st') ∧
     r = (201, JBooked "Activity booked successfully" bid booking) ∧
     bookings st' !! bid = Some booking ∧
     bdate (bschedule booking) = date Sample.slotJune ∧
     bstartTime (bschedule booking) = startTime Sample.slotJune ∧
     bendTime (bschedule booking) = endTime Sample.slotJune ∧
     activities st' !! 1%N = Some act' ∧
     schedule act' !! 0%nat = Some Sample.slotFull ∧
     schedule act' !! 1%nat = Some slot' ∧
     schedule act' !! 2%nat = Some Sample.slotApril ∧
     date slot' = date Sample.slotJune ∧
     Number.valueZ (availableSpots Sample.slotJune) = Some 2 ∧
     Number.valueZ (availableSpots slot') = Some 1) ∧
  (∃ st1, snd (createBooking Sample.store0 Sample.alice (Some 2%N)) = st1 ∧
     createBooking st1 Sample.bob (Some 2%N) = (NoAvailability, st1)).
Proof.
  destruct (reserve_decrements_chosen_slot Sample.store0 Sample.alice)
    as [Hframe Hlast].
  split.
  - destruct (createBooking Sample.store0 Sample.alice (Some 1%N))
      as [r st'] eqn:Hrun.
    destruct (Hframe (Some 1%N) r st' Hrun)
      as (aid & act & act' & i & slot & slot' & bid & booking & Haid & Hact
          & Hact' & Hi & Hpos & Hfirst & Hr & _ & Hbooking & _ & _ & _
          & Hdate & Hstart & Hend & Hi' & _ & Hexact & Hdate' & _ & _ & _
          & Hothers & _).
    { vm_compute in Hrun. by simplify_eq. }
    injection Haid as <-.
    assert (act = Sample.yoga) as ->
      by (apply Some_eq; rewrite <- Hact; reflexivity).
    assert (i = 1%nat) as ->.
    { destruct i as [|[|i]]; [|done|].
      - injection Hi as <-. vm_compute in Hpos. discriminate.
      - destruct (Hfirst 1%nat Sample.slotJune); [done | lia | done]. }
    injection Hi as <-.
    exists r, st', bid, booking, act', slot'.
    repeat (split; [done|]).
    split; [by rewrite (Hothers 0%nat)|]. split; [done|].
    split; [by rewrite (Hothers 2%nat)|]. split; [done|].
    split; [reflexivity|]. apply (Hexact 2); [reflexivity | lia].
  - destruct (Hlast 2%N Sample.kayak Sample.slotLast Sample.bob)
      as (r1 & st1 & act1 & slot1 & Hrun & _ & _ & _ & _ & Hsecond & _);
      [reflexivity..|].
    exists st1. split; [exact (f_equal snd Hrun) | exact Hsecond].
Defined.

Lemma reserve_books_first_available_slot_witness :
  ∃ i slot bid booking st',
    schedule Sample.yoga !! i = Some slot ∧
    Number.lt Number.zero (availableSpots slot) ∧
    (∀ j s, schedule Sample.yoga !! j = Some s → (j < i)%nat →
       ¬ Number.lt Number.zero (availableSpots s)) ∧
    createBooking Sample.store0 Sample.alice (Some 1%N) =
      ((201, JBooked "Activity booked successfully" bid booking), st') ∧
    bookings Sample.store0 !! bid = None ∧ bookings st' !! bid = Some booking ∧
    user booking = Sample.alice ∧ activity booking = 1%N ∧
    bdate (bschedule booking) = date slot ∧
    bstartTime (bschedule booking) = startTime slot ∧
    bendTime (bschedule booking) = endTime slot ∧
    ∃ act', activities st' !! 1%N = Some act' ∧
      schedule act' !! i =
        Some (set_availableSpots slot
                (Number.sub (availableSpots slot) Number.one)).
Proof.
  apply (reserve_books_first_available_slot
           Sample.store0 Sample.alice 1%N Sample.yoga).
  - reflexivity.
  - reflexivity.
  - exists Sample.slotJune. split; [|reflexivity].
    apply list_elem_of_lookup. by exists 1%nat.
Defined.

(** The slot booked on the sample activity is the one stored second, dated
    June, although the third slot is dated April and has spots. *)
Example reserve_ignores_dates :
  ∃ bid booking st',
    createBooking Sample.store0 Sample.alice (Some 1%N) =
      ((201, JBooked "Activity booked successfully" bid booking), st') ∧
    bdate (bschedule booking) = date Sample.slotJune ∧
    date Sample.slotApril < date Sample.slotJune ∧
    Number.lt Number.zero (availableSpots Sample.slotApril).
Proof.
  eexists _, _, _. split; [vm_compute; reflexivity|]. by vm_compute.
Qed.

(** ** Cancel *)

Section CancelFacts.
Implicit Types (st : Store) (b : Booking) (act : Activity).

Lemma findOneOwned_Some st id userId b :
  findOneOwned st id userId = Some b ↔
  bookings st !! id = Some b ∧ user b = userId.
Proof.
  unfold findOneOwned. destruct (bookings st !! id) as [b'|].
  - destruct (decide (user b' = userId)) as [Hu|Hu]; split.
    + by intros [= <-].
    + by intros [[= ->] _].
    + done.
    + intros [[= ->] ?]. done.
  - split; [done | by intros [? _]].
Qed.

Lemma sameSlot_set_status b s p slot :
  sameSlot (set_status b s p) slot ↔ sameSlot b slot.
Proof. reflexivity. Qed.

(** The booking is written first, whatever happens next. *)
Lemma cancelBooking_live st userId id b :
  bookings st !! id = Some b → user b = userId → status b ≠ "cancelled" →
  ∃ r st',
    cancelBooking st userId id = (r, st') ∧
    bookings st' = <[id := set_status b "cancelled" "refunded"]> (bookings st) ∧
    users st' = users st.
Proof.
  intros Hb Hu Hlive. unfold cancelBooking.
  rewrite (proj2 (findOneOwned_Some st id userId b) (conj Hb Hu)).
  rewrite decide_False by done. cbn.
  destruct (activities st !! activity b) as [act|]; [|by eexists _, _].
  destruct (list_find _ (schedule act)) as [[i slot]|]; by eexists _, _.
Qed.

Lemma cancelBooking_again st userId id b :
  bookings st !! id = Some b → user b = userId → status b = "cancelled" →
  cancelBooking st userId id = (AlreadyCancelled, st).
Proof.
  intros Hb Hu Hdone. unfold cancelBooking.
  rewrite (proj2 (findOneOwned_Some st id userId b) (conj Hb Hu)).
  by rewrite decide_True.
Qed.

End CancelFacts.

(** Claim C3, as stated, fails at large counts.  Alice holds a booking
    for one participant of the kayak tour's slot, which has 2^53 spots.
    Her cancellation is answered 200 and the slot has 2^53 spots as
    before: 2^53 + 1 is not a Number and the sum rounds to 2^53. *)
Lemma cancel_keeps_full_count :
  ∃ st' act',
    valid_binary Number.prec Number.emax (availableSpots Sample2.fullSlot) = true ∧
    Number.valueZ (availableSpots Sample2.fullSlot) = Some (2 ^ 53) ∧
    (numberOfParticipants <$> bookings Sample2.storeFull !! 0%N) = Some 1%N ∧
    (status <$> bookings Sample2.storeFull !! 0%N) = Some "pending" ∧
    (schedule <$> activities Sample2.storeFull !! 2%N) = Some [Sample2.fullSlot] ∧
    cancelBooking Sample2.storeFull Sample.alice 0%N = (Cancelled, st') ∧
    code Cancelled = 200 ∧
    activities st' !! 2%N = Some act' ∧
    schedule act' = [Sample2.fullSlot].
Proof.
  eexists _, _. repeat (split; [reflexivity|]). vm_compute. reflexivity.
Qed.

(** Claim C3, amended.  Cancelling a booking that the caller owns and that
    is not cancelled makes it cancelled and refunded and leaves its other
    fields and the other bookings as they were.  When the booking's
    activity is stored, the answer is 200; if a slot of the activity has
    the booking's date, start time and end time, the count of the first
    such slot is replaced by the Number [availableSpots +
    numberOfParticipants], which is exactly that sum when the count is an
    integer and neither the count nor the participants nor their sum goes
    beyond 2^53 in size, and nothing else in the activities changes; if no
    slot has them, the activities are unchanged. *)
Theorem cancel_restores_matching_slot
    (st : Store) (userId id : ObjectId) (b : Booking) :
  bookings st !! id = Some b → user b = userId → status b ≠ "cancelled" →
  ∃ r st' b',
    cancelBooking st userId id = (r, st') ∧
    bookings st' !! id = Some b' ∧
    status b' = "cancelled" ∧ paymentStatus b' = "refunded" ∧
    user b' = user b ∧ activity b' = activity b ∧
    bschedule b' = bschedule b ∧
    numberOfParticipants b' = numberOfParticipants b ∧
    totalPrice b' = totalPrice b ∧
    (∀ j, j ≠ id → bookings st' !! j = bookings st !! j) ∧
    ∀ act, activities st !! activity b = Some act →
      r = Cancelled ∧ code r = 200 ∧
      ((∃ s, s ∈ schedule act ∧ sameSlot b s) →
       ∃ i slot slot' act',
         schedule act !! i = Some slot ∧ sameSlot b slot ∧
         (∀ j s, schedule act !! j = Some s → (j < i)%nat → ¬ sameSlot b s) ∧
         activities st' !! activity b = Some act' ∧
         schedule act' !! i = Some slot' ∧
         availableSpots slot' =
           Number.add (availableSpots slot)
             (Number.ofN (numberOfParticipants b)) ∧
         (∀ n, Number.valueZ (availableSpots slot) = Some n →
            - 2 ^ 53 <= n → Z.of_N (numberOfParticipants b) <= 2 ^ 53 →
            n + Z.of_N (numberOfParticipants b) <= 2 ^ 53 →
            Number.valueZ (availableSpots slot') =
              Some (n + Z.of_N (numberOfParticipants b))) ∧
         date slot' = date slot ∧ startTime slot' = startTime slot ∧
         endTime slot' = endTime slot ∧
         length (schedule act') = length (schedule act) ∧
         (∀ j, j ≠ i → schedule act' !! j = schedule act !! j) ∧
         title act' = title act ∧ description act' = description act ∧
         price act' = price act ∧ duration act' = duration act ∧
         capacity act' = capacity act ∧ location act' = location act ∧
         isActive act' = isActive act ∧
         (∀ k, k ≠ activity b → activities st' !! k = activities st !! k)) ∧
      ((∀ s, s ∈ schedule act → ¬ sameSlot b s) →
       activities st' = activities st).
Proof.
  intros Hb Hu Hlive.
  destruct (cancelBooking_live st userId id b Hb Hu Hlive)
    as (r & st' & Hrun & Hbookings & _).
  exists r, st', (set_status b "cancelled" "refunded").
  split; [exact Hrun|]. rewrite Hbookings.
  split; [apply lookup_insert_eq|]. repeat (split; [done|]).
  split; [intros j Hj; by rewrite lookup_insert_ne|].
  intros act Hact. revert Hrun. unfold cancelBooking.
  rewrite (proj2 (findOneOwned_Some st id userId b) (conj Hb Hu)).
  rewrite decide_False by done.
  cbn [activities set_bookings activity set_status].
  rewrite Hact.
  destruct (list_find _ (schedule act)) as [[i slot]|] eqn:Hfind;
    intros [= <- <-]; (split; [done|]); (split; [done|]).
  - apply list_find_Some in Hfind as (Hi & Hsame & Hbefore). split.
    + intros _. eexists i, slot, _, _. split; [done|]. split; [done|].
      split; [exact Hbefore|]. cbn [activities set_activities].
      split; [apply lookup_insert_eq|]. cbn [schedule set_schedule].
      split; [apply list_lookup_insert_eq; by eapply lookup_lt_Some|].
      split; [done|].
      split.
      { intros n Hn Hlo Hp Hsum. cbn [availableSpots set_availableSpots].
        apply add_exact; [done | lia | lia | lia]. }
      repeat (split; [done|]).
      split; [apply length_insert|].
      split; [intros j Hj; by apply list_lookup_insert_ne|].
      repeat (split; [done|]).
      intros k Hk. by rewrite lookup_insert_ne.
    + intros Hnone. destruct (Hnone slot); [|done].
      apply list_elem_of_lookup. by exists i.
  - split; [|done].
    intros (s & Hs & Hsame).
    destruct (list_find_elem_of (sameSlot (set_status b "cancelled" "refunded"))
                (schedule act) s Hs Hsame) as [x Hx].
    rewrite Hfind in Hx. done.
Qed.

(** Claim C4.  Cancelling a booking of the caller that is already
    cancelled is answered 400 "Booking is already cancelled" and leaves
    the store as it is: no booking and no slot changes.  So whatever a
    cancel request of the owner did, repeating it is answered 400 and
    changes nothing. *)
Theorem cancel_twice_changes_nothing
    (st : Store) (userId id : ObjectId) (b : Booking) :
  bookings st !! id = Some b → user b = userId →
  (status b = "cancelled" →
   cancelBooking st userId id = (AlreadyCancelled, st) ∧
   code AlreadyCancelled = 400) ∧
  (∀ r st', cancelBooking st userId id = (r, st') →
     cancelBooking st' userId id = (AlreadyCancelled, st')).
Proof.
  intros Hb Hu. split.
  - intros Hdone. split; [by eapply cancelBooking_again | done].
  - intros r st' Hrun.
    destruct (decide (status b = "cancelled")) as [Hdone|Hlive].
    + rewrite (cancelBooking_again st userId id b) in Hrun by done.
      simplify_eq. by eapply cancelBooking_again.
    + destruct (cancelBooking_live st userId id b Hb Hu Hlive)
        as (r' & st'' & Hrun' & Hbookings & _).
      assert (st' = st'') as -> by congruence.
      apply (cancelBooking_again _ _ _ (set_status b "cancelled" "refunded")).
      * rewrite Hbookings. apply lookup_insert_eq.
      * exact Hu.
      * done.
Qed.

Lemma cancel_restores_matching_slot_witness :
  ∃ st' b' act' slot',
    cancelBooking Sample.store1 Sample.alice Sample.booking1 = (Cancelled, st') ∧
    bookings st' !! Sample.booking1 = Some b' ∧
    status b' = "cancelled" ∧ paymentStatus b' = "refunded" ∧
    activities st' !! 2%N = Some act' ∧
    schedule act' !! 0%nat = Some slot' ∧
    (schedule <$> activities Sample.store1 !! 2%N)
      = Some [set_availableSpots Sample.slotLast (Number.ofZ 0)] ∧
    Number.valueZ (availableSpots slot') = Some 1.
Proof.
  assert (bookings Sample.store1 !! Sample.booking1
          = Some (newBooking Sample.alice 2%N Sample.slotLast (price Sample.kayak)))
    as Hb by (vm_compute; reflexivity).
  edestruct (cancel_restores_matching_slot
               Sample.store1 Sample.alice Sample.booking1)
    as (r & st' & b' & Hrun & Hb' & Hstatus & Hpay & _ & _ & _ & _ & _ & _ & Hact).
  - exact Hb.
  - reflexivity.
  - vm_compute. discriminate.
  - edestruct Hact as (-> & _ & Hslot & _); [vm_compute; reflexivity|].
    destruct Hslot as (i & slot & slot' & act' & Hi & _ & _ & Hact' & Hi'
                       & _ & Hexact & _).
    { eexists. split; [apply list_elem_of_lookup; by exists 0%nat|].
      by vm_compute. }
    destruct i as [|i]; [|done]. injection Hi as <-.
    exists st', b', act', slot'. repeat (split; [done|]).
    apply (Hexact 0); [reflexivity | lia | done | done].
Defined.

(** On the sample store the cancelled booking gives the kayak slot its
    spot back; once the slot has been replaced, the cancel is still
    answered 200 and the schedule stays as it is. *)
Example cancel_sample_runs :
  (∃ st', cancelBooking Sample.store1 Sample.alice Sample.booking1
            = (Cancelled, st') ∧
     (schedule <$> activities st' !! 2%N) = Some [Sample.slotLast]) ∧
  (∃ st', cancelBooking Sample.store1' Sample.alice Sample.booking1
            = (Cancelled, st') ∧
     activities st' = activities Sample.store1').
Proof.
  split; eexists; (split; [vm_compute; reflexivity|]); by vm_compute.
Qed.

Lemma cancel_twice_changes_nothing_witness :
  cancelBooking Sample.store2 Sample.alice Sample.booking1
    = (AlreadyCancelled, Sample.store2) ∧
  code AlreadyCancelled = 400.
Proof.
  edestruct (cancel_twice_changes_nothing
               Sample.store2 Sample.alice Sample.booking1) as [Hdone _].
  - vm_compute. reflexivity.
  - reflexivity.
  - apply Hdone. reflexivity.
Defined.

(** ** Reserve: its failures *)

(** Claim C5.  A reservation with an activity id is answered 404
    "Activity not found or inactive" exactly when no activity is stored
    under the id or the stored one has [isActive = false], and 400 "No
    available slots" exactly when the activity is stored, active, and has
    no slot with [availableSpots > 0]; these are its only 404 and 400
    answers, and in both cases the store (bookings and activities) is
    left as it was. *)
Theorem reserve_failures (st : Store) (userId aid : ObjectId) :
  let r := fst (createBooking st userId (Some aid)) in
  let st' := snd (createBooking st userId (Some aid)) in
  (r = NotFoundActivity ↔
     activities st !! aid = None ∨
     ∃ act, activities st !! aid = Some act ∧ isActive act = false) ∧
  (r = NoAvailability ↔
     ∃ act, activities st !! aid = Some act ∧ isActive act = true ∧
       ∀ s, s ∈ schedule act → ¬ Number.lt Number.zero (availableSpots s)) ∧
  (code r = 404 ↔ r = NotFoundActivity) ∧
  (code r = 400 ↔ r = NoAvailability) ∧
  (r = NotFoundActivity ∨ r = NoAvailability → st' = st).
Proof.
  cbn zeta. unfold createBooking.
  destruct (findOneActive st aid) as [act|] eqn:Hact.
  - apply findOneActive_Some in Hact as [Hact Hon].
    destruct (list_find hasSpots (schedule act)) as [[i slot]|] eqn:Hfind.
    + apply list_find_Some in Hfind as (Hi & Hpos & _). cbn.
      split; [split; [done|]|].
      { intros [? | (a & ? & ?)]; congruence. }
      split; [split; [done|]|].
      { intros (a & Ha & _ & Hnone). assert (a = act) as -> by congruence.
        destruct (Hnone slot); [|done]. apply list_elem_of_lookup. by exists i. }
      repeat split; try done. by intros [|].
    + cbn. split; [split; [done|]|].
      { intros [? | (a & ? & ?)]; congruence. }
      split; [split|].
      { intros _. exists act. repeat split; try done.
        intros s Hs Hpos.
        destruct (list_find_elem_of hasSpots (schedule act) s Hs Hpos) as [x Hx].
        congruence. }
      { done. }
      repeat split; done.
  - apply findOneActive_None in Hact. cbn.
    split; [done|]. split; [split; [done|]|].
    { intros (a & Ha & Hon & _). destruct Hact as [? | (a' & ? & ?)]; congruence. }
    repeat split; done.
Qed.

(** ** The admin status update *)

(** Claim C6.  Whatever the request, the admin status update leaves the
    activities (so every slot's [availableSpots]), the users and every
    booking but the targeted one as they were.  When it is answered 200
    the targeted booking has the requested status and payment status and
    all its other fields as before; otherwise the store is unchanged. *)
Theorem updateStatus_touches_one_booking
    (st : Store) (id : ObjectId) (newStatus newPayment : option string) :
  let r := fst (updateStatus st id newStatus newPayment) in
  let st' := snd (updateStatus st id newStatus newPayment) in
  activities st' = activities st ∧ users st' = users st ∧
  (∀ j, j ≠ id → bookings st' !! j = bookings st !! j) ∧
  (code r = 200 →
   ∃ b b' s p,
     newStatus = Some s ∧ newPayment = Some p ∧
     bookings st !! id = Some b ∧ bookings st' !! id = Some b' ∧
     r = (200, JBooking id b') ∧
     status b' = s ∧ paymentStatus b' = p ∧
     user b' = user b ∧ activity b' = activity b ∧
     bschedule b' = bschedule b ∧
     numberOfParticipants b' = numberOfParticipants b ∧
     totalPrice b' = totalPrice b) ∧
  (code r ≠ 200 → st' = st).
Proof.
  cbn zeta. unfold updateStatus.
  destruct (statusErrors newStatus newPayment) as [|e errors] eqn:Herr.
  - destruct (bookings st !! id) as [b|] eqn:Hb; cbn.
    + repeat (split; [done|]).
      split; [intros j Hj; by rewrite lookup_insert_ne|].
      split; [|done]. intros _.
      unfold statusErrors, isIn in Herr.
      destruct newStatus as [s|], newPayment as [p|];
        try (by repeat case_match).
      eexists b, _, s, p. repeat (split; [done|]).
      split; [apply lookup_insert_eq|]. done.
    + repeat split; done.
  - cbn. repeat split; done.
Qed.

(** Cancelling through the admin route leaves the kayak slot at 0; the
    user's cancel route gives the spot back. *)
Example admin_cancel_keeps_spots :
  (schedule <$>
     activities (snd (updateStatus Sample.store1 Sample.booking1
                        (Some "cancelled") (Some "refunded"))) !! 2%N)
    = Some [set_availableSpots Sample.slotLast (Number.ofZ 0)] ∧
  (schedule <$>
     activities (snd (cancelBooking Sample.store1 Sample.alice
                        Sample.booking1)) !! 2%N)
    = Some [Sample.slotLast].
Proof. split; by vm_compute. Qed.

(** ** Spots never go below zero *)

Section NonNegative.

Lemma createBooking_whole st userId activityId :
  wholeCounts st →
  wholeCounts (snd (createBooking st userId activityId)).
Proof.
  intros Hinv. unfold createBooking.
  destruct activityId as [aid|]; [|done].
  destruct (findOneActive st aid) as [act|] eqn:Hact; [|done].
  apply findOneActive_Some in Hact as [Hact _].
  destruct (list_find hasSpots (schedule act)) as [[i slot]|] eqn:Hfind; [|done].
  apply list_find_Some in Hfind as (Hi & Hpos & _). unfold hasSpots in Hpos.
  pose proof (Hinv aid act Hact) as Hslots.
  apply map_Forall_insert_2; [|exact Hinv].
  apply Forall_insert; [exact Hslots|]. cbn.
  apply sub_one_count; [|exact Hpos].
  exact (Forall_lookup_1 _ _ _ _ Hslots Hi).
Qed.

Lemma cancelBooking_whole st userId id :
  wholeCounts st →
  wholeCounts (snd (cancelBooking st userId id)).
Proof.
  intros Hinv. unfold cancelBooking.
  destruct (findOneOwned st id userId) as [b|]; [|done].
  destruct (decide (status b = "cancelled")); [done|]. cbn.
  destruct (activities st !! activity b) as [act|] eqn:Hact; [|done].
  destruct (list_find _ (schedule act)) as [[i slot]|] eqn:Hfind; [|done].
  apply list_find_Some in Hfind as (Hi & _ & _).
  pose proof (Hinv _ _ Hact) as Hslots.
  apply map_Forall_insert_2; [|exact Hinv].
  apply Forall_insert; [exact Hslots|]. cbn.
  apply add_count; [exact (Forall_lookup_1 _ _ _ _ Hslots Hi)|].
  apply ofZ_count. lia.
Qed.

Lemma run_whole st rs : wholeCounts st → wholeCounts (run st rs).
Proof.
  revert st. induction rs as [|r rs IH]; intros st Hinv; [done|].
  cbn. apply IH. destruct r as [u a|u b]; cbn.
  - by apply createBooking_whole.
  - by apply cancelBooking_whole.
Qed.

Lemma wholeCounts_nonneg st : wholeCounts st → spotsNonNegative st.
Proof.
  intros Hinv aid act Hact. specialize (Hinv aid act Hact).
  eapply Forall_impl; [exact Hinv|]. intros slot. apply le_zero_count.
Qed.

End NonNegative.

(** Claim C10, as stated, fails at counts that are not integers.  The
    kayak tour's only slot holds half a spot, so every count of the store
    is at least 0.  The count is positive, a reservation takes the slot
    and leaves it at minus one half. *)
Lemma reserve_takes_half_below_zero :
  valid_binary Number.prec Number.emax (availableSpots Sample2.halfSlot) = true ∧
  Number.add (availableSpots Sample2.halfSlot) (availableSpots Sample2.halfSlot)
    = Number.one ∧
  bool_decide (spotsNonNegative (Sample2.withKayakSlot Sample2.halfSlot)) = true ∧
  bool_decide
    (spotsNonNegative
       (run (Sample2.withKayakSlot Sample2.halfSlot)
          [Reserve Sample.alice (Some 2%N)])) = false.
Proof. repeat split; vm_compute; reflexivity. Qed.

(** Claim C10, amended.  If every slot of every stored activity has a
    non-negative integer (or Infinity) as [availableSpots], then so it is
    after any list of reserve and cancel requests handled one after the
    other, and every slot has [availableSpots >= 0]. *)
Theorem spots_stay_non_negative (st : Store) (rs : list Request) :
  wholeCounts st →
  wholeCounts (run st rs) ∧ spotsNonNegative (run st rs).
Proof.
  intros Hinv. pose proof (run_whole st rs Hinv) as Hrun.
  split; [exact Hrun | by apply wholeCounts_nonneg].
Qed.

Lemma spots_stay_non_negative_witness :
  bool_decide (wholeCounts Sample.store0) = true ∧
  bool_decide
    (spotsNonNegative
       (run Sample.store0
          [Reserve Sample.alice (Some 2%N); Reserve Sample.bob (Some 2%N);
           Cancel Sample.alice Sample.booking1; Reserve Sample.bob (Some 1%N)]))
  = true.
Proof.
  assert (wholeCounts Sample.store0) as Hwhole.
  { apply (bool_decide_unpack _). vm_compute. exact I. }
  split; [by apply bool_decide_eq_true_2|].
  apply bool_decide_eq_true_2.
  by apply (spots_stay_non_negative Sample.store0).
Defined.

(** ** Soft delete *)

Import ActivityRoutes.

(** Claim C9.  Deleting a stored activity is answered 200 and only sets
    its [isActive] to false: its schedule and other fields, every other
    activity, the bookings and the users are as before.  Afterwards no
    summary of the listing carries its id, the other active activities
    are still listed, and the single-activity route returns it in full. *)
Theorem softDelete_hides_activity (st : Store) (id : ObjectId) (act : Activity) :
  activities st !! id = Some act →
  ∃ st' act' l,
    softDelete st id = ((200, JMessage "Activity deleted successfully"), st') ∧
    bookings st' = bookings st ∧ users st' = users st ∧
    activities st' !! id = Some act' ∧
    isActive act' = false ∧ schedule act' = schedule act ∧
    title act' = title act ∧ description act' = description act ∧
    price act' = price act ∧ duration act' = duration act ∧
    capacity act' = capacity act ∧ location act' = location act ∧
    (∀ j, j ≠ id → activities st' !! j = activities st !! j) ∧
    listActive st' = (200, JSummaries l) ∧
    (∀ s, s ∈ l → sid s ≠ id) ∧
    (∀ j a, j ≠ id → activities st !! j = Some a → isActive a = true →
       summary j a ∈ l) ∧
    getById st' id = (200, JActivity id act').
Proof.
  intros Hact. unfold softDelete, listActive, getById. rewrite Hact.
  eexists _, _, _. split; [reflexivity|]. cbn [bookings users activities set_activities].
  repeat (split; [done|]).
  split; [apply lookup_insert_eq|]. repeat (split; [done|]).
  split; [intros j Hj; by rewrite lookup_insert_ne|].
  split; [reflexivity|].
  split; [|split].
  - intros s Hs.
    apply list_elem_of_fmap in Hs as ([j a] & -> & Hja).
    apply list_elem_of_filter in Hja as [Hon Hja].
    apply elem_of_map_to_list in Hja. cbn. intros ->.
    rewrite lookup_insert_eq in Hja. injection Hja as <-. done.
  - intros j a Hj Ha Hon.
    apply (list_elem_of_fmap_2' _ _ (j, a)); [|done].
    apply list_elem_of_filter. split; [done|].
    apply elem_of_map_to_list. by rewrite lookup_insert_ne.
  - by rewrite lookup_insert_eq.
Qed.

Lemma softDelete_hides_activity_witness :
  ∃ st',
    softDelete Sample.store1 1%N =
      ((200, JMessage "Activity deleted successfully"), st') ∧
    bookings st' = bookings Sample.store1 ∧
    getById st' 1%N = (200, JActivity 1%N (set_isActive Sample.yoga false)) ∧
    listActive st' =
      (200, JSummaries
              [summary 2%N (set_schedule Sample.kayak
                              [set_availableSpots Sample.slotLast
                                 (Number.ofZ 0)])]).
Proof.
  destruct (softDelete_hides_activity Sample.store1 1%N Sample.yoga)
    as (st' & act' & l & Hrun & Hbookings & _); [reflexivity|].
  exists st'. split; [exact Hrun|]. split; [exact Hbookings|].
  vm_compute in Hrun. injection Hrun as <-. split; reflexivity.
Defined.

(** ** Registration *)

Import AuthRoutes.

Section RegisterFacts.
Context `{!ValidatorJs} `{!AuthServices}.

Lemma fresh_user_id (st : Store) : users st !! fresh (dom (users st)) = None.
Proof. apply not_elem_of_dom, is_fresh. Qed.

(** Registration answers 201 only for a valid form with an unused email. *)
Lemma register_201 (st : Store) (body : RawRegister) :
  code (fst (register st body)) = 201 ↔
  registerErrors body = [] ∧ findByEmail st (sanitizedEmail body) = None.
Proof.
  unfold register. destruct (registerErrors body) as [|e errors].
  - destruct (findByEmail st (sanitizedEmail body)) as [found|]; cbn.
    + split; [done | by intros [_ ?]].
    + done.
  - cbn. split; [done | by intros [? _]].
Qed.

(** Claim C8.  A registration that passes validation with an email no
    stored user has is answered 201 and stores one new user under the
    email the request carries after sanitization; that user's role is
    "admin" when this email is [admin@example.com] and "user" when it is
    any other, and the response reports the same role. *)
Theorem register_assigns_role (st : Store) (body : RawRegister) :
  registerErrors body = [] →
  findByEmail st (sanitizedEmail body) = None →
  ∃ id u token st',
    register st body =
      ((201, JRegistered "User registered successfully" token
               {| vid := id; vname := name u; vemail := email u;
                  vrole := role u; vphone := phone u |}), st') ∧
    users st !! id = None ∧ users st' !! id = Some u ∧
    (∀ j, j ≠ id → users st' !! j = users st !! j) ∧
    email u = sanitizedEmail body ∧
    (email u = "admin@example.com" → role u = "admin") ∧
    (email u ≠ "admin@example.com" → role u = "user").
Proof.
  intros Hvalid Hnew. unfold register. rewrite Hvalid, Hnew.
  eexists (fresh (dom (users st))),
    (mkUser (sanitizedName body) (sanitizedEmail body)
       (hashPassword (sanitizedPassword body)) (sanitizedPhone body)
       (roleFor (sanitizedEmail body))), _, _.
  split; [reflexivity|].
  split; [apply fresh_user_id|]. cbn [users set_users].
  split; [apply lookup_insert_eq|].
  split; [intros j Hj; by rewrite lookup_insert_ne|].
  split; [done|]. cbn [email role]. unfold roleFor.
  split; intros He; [by rewrite decide_True | by rewrite decide_False].
Qed.

End RegisterFacts.

Lemma register_assigns_role_witness :
  ∃ id u token view st',
    @register Plain.validator Plain.services Sample.store0 Plain.adminForm =
      ((201, JRegistered "User registered successfully" token view), st') ∧
    users st' !! id = Some u ∧ email u = "admin@example.com" ∧
    role u = "admin" ∧ vrole view = "admin".
Proof.
  destruct (@register_assigns_role Plain.validator Plain.services
              Sample.store0 Plain.adminForm)
    as (id & u & token & st' & Hrun & _ & Hu & _ & Hemail & Hadmin & _).
  - vm_compute. reflexivity.
  - vm_compute. reflexivity.
  - assert (email u = "admin@example.com") as He.
    { rewrite Hemail. vm_compute. reflexivity. }
    eexists id, u, token, _, st'. split; [exact Hrun|].
    split; [exact Hu|]. split; [exact He|]. cbn [vrole].
    split; exact (Hadmin He).
Defined.

(** On the sample store the admin form registers an admin and any other
    form a plain user, also after the admin exists. *)
Example register_sample_roles :
  let run := @register Plain.validator Plain.services in
  (role <$> users (snd (run Sample.store0 Plain.adminForm)) !! 0%N)
    = Some "admin" ∧
  (role <$> users (snd (run Sample.store0 Plain.guestForm)) !! 0%N)
    = Some "user" ∧
  (role <$> users (snd (run (snd (run Sample.store0 Plain.adminForm))
                          Plain.guestForm)) !! 1%N)
    = Some "user".
Proof. by vm_compute. Qed.

(** ** Validation of activity requests *)

Import Validation.

(** The time pattern on a few strings: one or two hour digits up to 23,
    a colon, two minute digits up to 59, and nothing else. *)
Example matchesTime_samples :
  matchesTime <$> ["9:30"; "09:05"; "23:59"; "25:61"; "24:00"; "19:60"; "7:5";
                   "009:05"; ""]
  = [true; true; true; false; false; false; false; false; false].
Proof. reflexivity. Qed.

Section ActivityValidation.
Context `{!ValidatorJs} `{!ActivityModel}.

Lemma check_nil (p : Path) (ok : bool) (m : string) :
  check p ok m = [] ↔ ok = true.
Proof. unfold check. by destruct ok. Qed.

(** On a body that has the six scalar fields and an empty schedule, the
    update chains accept exactly what the create chains accept. *)
Lemma update_agrees_on_scalars (t d p du c l : string) :
  let body :=
    {| r_title := Some t; r_description := Some d; r_price := Some p;
       r_duration := Some du; r_capacity := Some c; r_location := Some l;
       r_schedule := Some [] |} in
  updateErrors body = [] ↔ createErrors body = [].
Proof.
  cbn zeta. unfold updateErrors, createErrors, eachSlot. cbn.
  unfold titleChain, descriptionChain, priceChain, durationChain,
    capacityChain, locationChain.
  rewrite !app_nil, !check_nil. intuition done.
Qed.

(** An update of an id that is not stored is answered 404. *)
Lemma update_missing_id (st : Store) (id : ObjectId) (body : RawActivity)
    (p : ActivityPatch) :
  updateErrors body = [] → castUpdate (updateSanitized body) = Some p →
  activities st !! id = None →
  updateActivity st id body = ((404, JMessage "Activity not found"), st).
Proof.
  intros Hvalid Hcast Hmiss. unfold updateActivity.
  by rewrite Hvalid, Hcast, Hmiss.
Qed.

(** Claim C7.  The update route has no validator for [schedule]: a body
    whose only field is a schedule with the slot
    [{date: "2026-05-01", startTime: "25:61", endTime: "26:00",
      availableSpots: "-3"}] passes its validation, so the request is
    never answered 400 and the slot reaches the model's update as it is;
    a create request with the same schedule is answered 400 with the
    start-time error. *)
Theorem update_skips_schedule_validation (st : Store) (id : ObjectId) :
  updateErrors Sample.badUpdate = [] ∧
  r_schedule (updateSanitized Sample.badUpdate) = Some [Sample.badSlot] ∧
  updateActivity st id Sample.badUpdate =
    match castUpdate (updateSanitized Sample.badUpdate), activities st !! id with
    | Some p, Some a =>
        ((200, JActivity id (applyPatch p a)),
         set_activities st (<[id := applyPatch p a]> (activities st)))
    | Some p, None => ((404, JMessage "Activity not found"), st)
    | None, _ => ((500, JFailure "Error updating activity"), st)
    end ∧
  ∀ full, r_schedule full = Some [Sample.badSlot] →
    mkError (SlotField 0 "startTime")
      "Valid start time is required (HH:MM format)" ∈ createErrors full ∧
    code (fst (createActivity st full)) = 400.
Proof.
  split; [reflexivity|]. split; [reflexivity|]. split.
  - unfold updateActivity. cbn [updateErrors Sample.badUpdate].
    change (updateErrors Sample.badUpdate) with (@nil ValidationError).
    destruct (castUpdate _); [|done]. by destruct (activities st !! id).
  - intros full Hsched.
    assert (mkError (SlotField 0 "startTime")
              "Valid start time is required (HH:MM format)" ∈ createErrors full)
      as Herr.
    { unfold createErrors. rewrite Hsched.
      do 8 (apply elem_of_app; right). apply elem_of_app; left.
      cbn. set_solver. }
    split; [exact Herr|]. unfold createActivity.
    destruct (createErrors full); [by apply elem_of_nil in Herr | done].
Qed.

End ActivityValidation.

(** * Further properties of the routes *)

(** ** Reserve and cancel together *)

Section ReserveCancel.
Implicit Types (st : Store) (act : Activity) (slot : ScheduleSlot)
  (l : list ScheduleSlot).

Lemma set_availableSpots_same slot : set_availableSpots slot (availableSpots slot) = slot.
Proof. by destruct slot. Qed.

Lemma set_schedule_same act : set_schedule act (schedule act) = act.
Proof. by destruct act. Qed.

Lemma smallCount_value x :
  smallCount x → ∃ n, 0 <= n <= 2 ^ 53 ∧ x = Number.ofZ n ∧ Number.valueZ x = Some n.
Proof.
  intros (n & Hn & ->). exists n. split; [done|]. split; [done|].
  apply ofZ_exact. lia.
Qed.

Lemma smallCount_nonneg x : smallCount x → Number.le Number.zero x.
Proof.
  intros (n & Hn & ->). apply le_zero_count, ofZ_count. lia.
Qed.

Lemma smallCount_pos x :
  smallCount x → Number.lt Number.zero x →
  ∃ n, 1 <= n <= 2 ^ 53 ∧ x = Number.ofZ n ∧
    Number.sub x Number.one = Number.ofZ (n - 1).
Proof.
  intros (n & Hn & ->) Hpos. apply lt_zero_ofZ in Hpos; [|done].
  exists n. split; [lia|]. split; [done|]. apply sub_ofZ_one. lia.
Qed.

Lemma smallSlots_nonneg act : smallSlots act → slotsNonNegative act.
Proof.
  intros Hsmall. eapply Forall_impl; [exact Hsmall|]. intros slot.
  apply smallCount_nonneg.
Qed.

(** The spots of a list of slots. *)
Lemma totalSpots_nonneg act : smallSlots act → 0 <= totalSpots act.
Proof.
  unfold smallSlots, totalSpots. induction 1 as [|s l Hs Hl IH]; cbn; [lia|].
  destruct (smallCount_value _ Hs) as (n & Hn & _ & ->). cbn. lia.
Qed.

Lemma totalSpots_none_left act :
  smallSlots act → list_find hasSpots (schedule act) = None → totalSpots act = 0.
Proof.
  unfold smallSlots, totalSpots. intros Hsmall Hnone.
  apply list_find_None in Hnone.
  induction Hsmall as [|s l Hs Hl IH]; [done|].
  apply Forall_cons in Hnone as [Hs0 Hnone]. unfold hasSpots in Hs0.
  cbn. rewrite IH by done.
  destruct Hs as (n & Hn & Hx). rewrite Hx in Hs0 |- *.
  rewrite lt_zero_ofZ in Hs0 by done. rewrite ofZ_exact by lia. cbn. lia.
Qed.

Lemma spots_insert l i slot x :
  l !! i = Some slot →
  foldr (λ slot n, default 0 (Number.valueZ (availableSpots slot)) + n) 0
    (<[i := set_availableSpots slot x]> l)
  = foldr (λ slot n, default 0 (Number.valueZ (availableSpots slot)) + n) 0 l
    - default 0 (Number.valueZ (availableSpots slot))
    + default 0 (Number.valueZ x).
Proof.
  revert i. induction l as [|s l IH]; intros [|i] Hi; try done.
  - injection Hi as ->. cbn. lia.
  - cbn. rewrite IH by done. lia.
Qed.

Lemma totalSpots_ge_slot act i slot n :
  smallSlots act → schedule act !! i = Some slot →
  Number.valueZ (availableSpots slot) = Some n → n <= totalSpots act.
Proof.
  unfold smallSlots, totalSpots. intros Hsmall. revert i.
  induction Hsmall as [|s l Hs Hl IH]; intros [|i] Hi Hn; try done.
  - injection Hi as ->. cbn. rewrite Hn. cbn.
    pose proof (totalSpots_nonneg (set_schedule (mkActivity "" "" 0 0 0 "" [] true) l) Hl)
      as Hrest.
    unfold totalSpots in Hrest. cbn [schedule set_schedule] in Hrest. lia.
  - cbn. specialize (IH i Hi Hn).
    destruct (smallCount_value _ Hs) as (k & Hk & _ & ->). cbn. lia.
Qed.

End ReserveCancel.

(** X1.  On an active activity whose slots all differ in date or times,
    have integer counts from 0 to 2^53, and one of which has spots, a
    reservation followed by the same user's cancellation of the booking
    it made is answered 201 and then 200, and leaves the activities and
    the users exactly as they were: the spot taken is given back to the
    slot it came from.  The booking stays, cancelled and refunded. *)
Theorem reserve_then_cancel_restores
    (st : Store) (userId aid : ObjectId) (act : Activity) :
  activities st !! aid = Some act → isActive act = true →
  smallSlots act →
  (∃ s, s ∈ schedule act ∧ Number.lt Number.zero (availableSpots s)) →
  (∀ j k s t, schedule act !! j = Some s → schedule act !! k = Some t →
     date s = date t → startTime s = startTime t → endTime s = endTime t →
     j = k) →
  ∃ bid b st1 st2,
    createBooking st userId (Some aid) =
      ((201, JBooked "Activity booked successfully" bid b), st1) ∧
    cancelBooking st1 userId bid = (Cancelled, st2) ∧
    activities st2 = activities st ∧ users st2 = users st ∧
    bookings st2 = <[bid := set_status b "cancelled" "refunded"]> (bookings st).
Proof.
  intros Hact Hon Hsmall (s & Hs & Hpos) Hdistinct.
  destruct (list_find_elem_of hasSpots (schedule act) s Hs Hpos)
    as [[i slot] Hfind].
  pose proof Hfind as Hfirst.
  apply list_find_Some in Hfirst as (Hi & Hipos & _).
  pose proof (lookup_lt_Some _ _ _ Hi) as Hlt.
  destruct (smallCount_pos _ (Forall_lookup_1 _ _ _ _ Hsmall Hi) Hipos)
    as (n & Hn & Hcount & Hsub).
  eexists _, _, _, _.
  split; [by apply createBooking_booked|].
  unfold cancelBooking, findOneOwned, reserved.
  cbn [bookings activities set_bookings set_activities].
  rewrite lookup_insert_eq. cbn [user newBooking].
  rewrite decide_True by done. cbn [status].
  rewrite decide_False by done.
  cbn [bookings activities set_bookings set_activities activity set_status].
  rewrite lookup_insert_eq. cbn [schedule set_schedule].
  set (slot' := set_availableSpots slot
                  (Number.sub (availableSpots slot) Number.one)).
  assert (list_find
            (sameSlot (set_status (newBooking userId aid slot (price act))
                         "cancelled" "refunded"))
            (<[i := slot']> (schedule act)) = Some (i, slot')) as ->.
  { apply list_find_Some. split; [by apply list_lookup_insert_eq|].
    split; [done|]. intros j t Hj Hji [Hd [Ha Hb]]. cbn in Hd, Ha, Hb.
    rewrite list_lookup_insert_ne in Hj by lia.
    specialize (Hdistinct j i t slot Hj Hi Hd Ha Hb). lia. }
  split; [reflexivity|].
  cbn [bookings activities users set_bookings set_activities].
  split; [|split; [done|]].
  - rewrite insert_insert_eq. apply insert_id.
    rewrite Hact. f_equal.
    unfold set_schedule at 1. cbn [title description price duration capacity
      location isActive set_schedule].
    rewrite list_insert_insert_eq.
    replace (set_availableSpots slot' _) with slot.
    + rewrite list_insert_id by done. by destruct act.
    + subst slot'. destruct slot as [d a b x]. unfold set_availableSpots.
      cbn [date startTime endTime availableSpots] in Hcount, Hsub |- *.
      f_equal. rewrite Hsub, Hcount.
      change (Number.ofN _) with (Number.ofZ 1).
      rewrite add_ofZ by lia. f_equal. lia.
  - by rewrite insert_insert_eq.
Qed.

Lemma reserve_then_cancel_restores_witness :
  ∃ bid b st1 st2,
    createBooking Sample.store0 Sample.alice (Some 1%N) =
      ((201, JBooked "Activity booked successfully" bid b), st1) ∧
    cancelBooking st1 Sample.alice bid = (Cancelled, st2) ∧
    activities st2 = activities Sample.store0 ∧
    users st2 = users Sample.store0 ∧
    bookings st2 =
      <[bid := set_status b "cancelled" "refunded"]> (bookings Sample.store0).
Proof.
  apply (reserve_then_cancel_restores Sample.store0 Sample.alice 1%N Sample.yoga).
  - reflexivity.
  - reflexivity.
  - repeat apply Forall_cons_2; [exists 0|exists 2|exists 5|apply Forall_nil_2];
      (split; [lia | reflexivity]).
  - exists Sample.slotJune. split; [|reflexivity].
    apply list_elem_of_lookup. by exists 1%nat.
  - intros j k s t Hj Hk Hd _ _.
    destruct j as [|[|[|j]]], k as [|[|[|k]]]; cbn in Hj, Hk;
      simplify_eq; try done; vm_compute in Hd; discriminate.
Defined.

(** With two slots of the same date and times the spot goes to the
    first of them, not to the one that was booked. *)
Example cancel_credits_first_twin :
  let st1 := snd (createBooking Sample2.store3 Sample.alice (Some 3%N)) in
  let st2 := snd (cancelBooking st1 Sample.alice (fresh (dom (bookings Sample2.store3)))) in
  (fmap availableSpots <$> (schedule <$> activities Sample2.store3 !! 3%N))
    = Some (Number.ofZ <$> [0; 3]) ∧
  (fmap availableSpots <$> (schedule <$> activities st1 !! 3%N))
    = Some (Number.ofZ <$> [0; 2]) ∧
  (fmap availableSpots <$> (schedule <$> activities st2 !! 3%N))
    = Some (Number.ofZ <$> [1; 2]).
Proof. by vm_compute. Qed.

(** ** Reservations one after the other *)

(** X2.  On a stored, active activity whose slots have integer counts
    from 0 to 2^53, a list of reservation requests handled one after the
    other is answered 201 until the spots of all slots together are used
    up and 400 from then on: the number of bookings made is the smaller
    of the number of requests and the spots there were, and the activity
    is left with that many spots fewer, its counts again integers from 0
    to 2^53. *)
Theorem reservations_fill_the_spots
    (st : Store) (aid : ObjectId) (act : Activity) (us : list ObjectId) :
  activities st !! aid = Some act → isActive act = true →
  smallSlots act →
  let requests := (λ u, Reserve u (Some aid)) <$> us in
  let booked := Nat.min (length us) (Z.to_nat (totalSpots act)) in
  code <$> answers st requests =
    (replicate booked 201 ++ replicate (length us - booked) 400)%list ∧
  ∃ act', activities (run st requests) !! aid = Some act' ∧
    totalSpots act' = totalSpots act - Z.of_nat booked ∧
    smallSlots act' ∧ slotsNonNegative act'.
Proof.
  cbn zeta. revert st act.
  induction us as [|u us IH]; intros st act Hact Hon Hsmall.
  { cbn. split; [done|]. exists act. split; [done|]. split; [lia|].
    split; [done | by apply smallSlots_nonneg]. }
  cbn [fmap list_fmap answers handle length]. unfold run. cbn [foldl handle].
  fold (run (snd (createBooking st u (Some aid))) ((λ u, Reserve u (Some aid)) <$> us)).
  destruct (list_find hasSpots (schedule act)) as [[i slot]|] eqn:Hfind.
  - rewrite (createBooking_booked st u aid act i slot Hact Hon Hfind).
    apply list_find_Some in Hfind as (Hi & Hpos & _). unfold hasSpots in Hpos.
    destruct (smallCount_pos _ (Forall_lookup_1 _ _ _ _ Hsmall Hi) Hpos)
      as (n & Hn & Hcount & Hsub).
    set (act1 := set_schedule act
                   (<[i := set_availableSpots slot
                             (Number.sub (availableSpots slot) Number.one)]>
                      (schedule act))).
    assert (totalSpots act1 = totalSpots act - 1) as Htotal.
    { unfold totalSpots, act1. cbn [schedule set_schedule].
      rewrite spots_insert by done. rewrite Hsub, Hcount.
      rewrite !ofZ_exact by lia. cbn. lia. }
    assert (smallSlots act1) as Hsmall1.
    { apply Forall_insert; [exact Hsmall|].
      cbn [availableSpots set_availableSpots]. rewrite Hsub.
      exists (n - 1). split; [lia | done]. }
    assert (n <= totalSpots act) as Hge.
    { apply (totalSpots_ge_slot act i slot); [done | done |].
      rewrite Hcount. apply ofZ_exact. lia. }
    destruct (IH (reserved st u aid act i slot) act1)
      as [Hcodes (act' & Hact' & Ht' & Hsmall' & Hnn')];
      [apply lookup_insert_eq | done | done |].
    cbn [fst snd code]. rewrite Hcodes, Htotal.
    replace (Nat.min (S (length us)) (Z.to_nat (totalSpots act)))
      with (S (Nat.min (length us) (Z.to_nat (totalSpots act - 1)))) by lia.
    split; [done|]. exists act'. split; [done|]. split; [lia|done].
  - assert (totalSpots act = 0) as Hzero by (by apply totalSpots_none_left).
    assert (createBooking st u (Some aid) = (NoAvailability, st)) as ->.
    { unfold createBooking.
      by rewrite (proj2 (findOneActive_Some st aid act) (conj Hact Hon)), Hfind. }
    destruct (IH st act Hact Hon Hsmall)
      as [Hcodes (act' & Hact' & Ht' & Hsmall' & Hnn')].
    cbn [fst snd code NoAvailability]. rewrite Hcodes, Hzero.
    replace (Nat.min (length us) (Z.to_nat 0)) with 0%nat by lia.
    replace (Nat.min (S (length us)) (Z.to_nat 0)) with 0%nat by lia.
    split; [by rewrite !Nat.sub_0_r|].
    exists act'. split; [done|]. split; [|done].
    rewrite Ht', Hzero. lia.
Qed.

Lemma reservations_fill_the_spots_witness :
  code <$> answers Sample.store0
             ((λ u, Reserve u (Some 2%N)) <$> [Sample.alice; Sample.bob; Sample.alice])
    = [201; 400; 400] ∧
  ∃ act', activities
            (run Sample.store0
               ((λ u, Reserve u (Some 2%N)) <$> [Sample.alice; Sample.bob; Sample.alice]))
            !! 2%N = Some act' ∧
    totalSpots act' = 0.
Proof.
  destruct (reservations_fill_the_spots Sample.store0 2%N Sample.kayak
              [Sample.alice; Sample.bob; Sample.alice])
    as [Hcodes (act' & Hact' & Htotal & _)].
  - reflexivity.
  - reflexivity.
  - apply Forall_cons_2; [|apply Forall_nil_2].
    exists 1. split; [lia | reflexivity].
  - split; [exact Hcodes|]. exists act'. split; [exact Hact'|]. exact Htotal.
Defined.

(** ** The answers of cancel and of the status update *)

(** X3.  The cancel route answers 404 exactly when no booking is stored
    under the id or the stored one belongs to another user, 400 exactly
    when the caller's booking is already cancelled, 500 exactly when the
    caller's booking is live and its activity is not stored, and 200
    otherwise.  On 404 and 400 the store is unchanged, so a user cannot
    change another user's booking; on 500 the booking has nevertheless
    been saved as cancelled and refunded. *)
Theorem cancel_answers (st : Store) (userId id : ObjectId) :
  let r := fst (cancelBooking st userId id) in
  let st' := snd (cancelBooking st userId id) in
  (code r = 404 ↔
     bookings st !! id = None ∨
     ∃ b, bookings st !! id = Some b ∧ user b ≠ userId) ∧
  (code r = 400 ↔
     ∃ b, bookings st !! id = Some b ∧ user b = userId ∧
       status b = "cancelled") ∧
  (code r = 500 ↔
     ∃ b, bookings st !! id = Some b ∧ user b = userId ∧
       status b ≠ "cancelled" ∧ activities st !! activity b = None) ∧
  (code r = 200 ↔
     ∃ b, bookings st !! id = Some b ∧ user b = userId ∧
       status b ≠ "cancelled" ∧ is_Some (activities st !! activity b)) ∧
  (code r = 404 ∨ code r = 400 → st' = st) ∧
  (code r = 500 →
     activities st' = activities st ∧
     ∃ b, bookings st !! id = Some b ∧
       bookings st' = <[id := set_status b "cancelled" "refunded"]> (bookings st)).
Proof.
  cbn zeta. unfold cancelBooking, findOneOwned.
  destruct (bookings st !! id) as [b|] eqn:Hb.
  2:{ cbn. repeat split; try done; try (by intros (? & ? & _)); by left. }
  destruct (decide (user b = userId)) as [Hu|Hu].
  2:{ cbn. split; [split; [intros _; right; by exists b | done]|].
      repeat split; try done; intros (b' & [= <-] & ? & _); done. }
  destruct (decide (status b = "cancelled")) as [Hs|Hs].
  { cbn. split; [split; [done | intros [? | (b' & [= <-] & ?)]; done]|].
    split; [split; [intros _; by exists b | done]|].
    repeat split; try done; intros (b' & [= <-] & ? & ? & _); done. }
  cbn [activities set_bookings activity set_status].
  destruct (activities st !! activity b) as [act|] eqn:Hact.
  - destruct (list_find _ (schedule act)) as [[i slot]|]; cbn.
    all: split; [split; [done | intros [? | (b' & [= <-] & ?)]; done]|].
    all: split; [split; [done | intros (b' & [= <-] & ? & ?); done]|].
    all: split; [split; [done | intros (b' & [= <-] & ? & ? & Hnone);
                          rewrite Hact in Hnone; done]|].
    all: split; [split; [intros _; exists b; by rewrite Hact | done]|].
    all: split; [by intros [|] | done].
  - cbn. split; [split; [done | intros [? | (b' & [= <-] & ?)]; done]|].
    split; [split; [done | intros (b' & [= <-] & ? & ?); done]|].
    split; [split; [intros _; by exists b | done]|].
    split; [split; [done | intros (b' & [= <-] & _ & _ & [? Hsome]);
                     rewrite Hact in Hsome; done]|].
    split; [by intros [|]|]. intros _. split; [done|]. by exists b.
Qed.

Lemma isIn_Some (allowed : list string) (v : option string) :
  isIn allowed v = true ↔ ∃ s, v = Some s ∧ s ∈ allowed.
Proof.
  unfold isIn. destruct v as [s|].
  - rewrite bool_decide_eq_true. split; [by exists s | by intros (? & [= <-] & ?)].
  - split; [done | by intros (? & ? & _)].
Qed.

(** X4.  The admin status update answers 400 exactly when the status is
    not one of pending, confirmed, cancelled or the payment status not
    one of pending, paid, refunded (a missing field included), whether
    or not the booking exists; 404 exactly when both are allowed and no
    booking is stored under the id; and 200 otherwise. *)
Theorem updateStatus_answers
    (st : Store) (id : ObjectId) (newStatus newPayment : option string) :
  let r := fst (updateStatus st id newStatus newPayment) in
  let allowed :=
    (∃ s, newStatus = Some s ∧ s ∈ ["pending"; "confirmed"; "cancelled"]) ∧
    (∃ p, newPayment = Some p ∧ p ∈ ["pending"; "paid"; "refunded"]) in
  (code r = 400 ↔ ¬ allowed) ∧
  (code r = 404 ↔ allowed ∧ bookings st !! id = None) ∧
  (code r = 200 ↔ allowed ∧ is_Some (bookings st !! id)).
Proof.
  cbn zeta. rewrite <- !isIn_Some. unfold updateStatus, statusErrors.
  destruct (isIn _ newStatus), (isIn _ newPayment); cbn;
    [destruct (bookings st !! id) as [b|] eqn:Hb; cbn|..];
    rewrite ?is_Some_alt; intuition (try done; try congruence).
Qed.

(** ** Cancelling again after a status update *)

Lemma cancelBooking_matched (st : Store) (userId id : ObjectId) (b : Booking)
    (act : Activity) (i : nat) (slot : ScheduleSlot) :
  bookings st !! id = Some b → user b = userId → status b ≠ "cancelled" →
  activities st !! activity b = Some act →
  list_find (sameSlot b) (schedule act) = Some (i, slot) →
  cancelBooking st userId id =
    (Cancelled,
     set_activities
       (set_bookings st (<[id := set_status b "cancelled" "refunded"]> (bookings st)))
       (<[activity b :=
            set_schedule act
              (<[i := set_availableSpots slot
                        (Number.add (availableSpots slot)
                           (Number.ofN (numberOfParticipants b)))]>
                 (schedule act))]> (activities st))).
Proof.
  intros Hb Hu Hlive Hact Hfind. unfold cancelBooking.
  rewrite (proj2 (findOneOwned_Some st id userId b) (conj Hb Hu)).
  rewrite decide_False by done.
  cbn [activities set_bookings].
  change (activity (set_status b "cancelled" "refunded")) with (activity b).
  rewrite Hact.
  assert (list_find (sameSlot (set_status b "cancelled" "refunded"))
            (schedule act) = Some (i, slot)) as -> by exact Hfind.
  reflexivity.
Qed.

(** X5.  A cancelled booking is not closed for good: once the admin
    status update has set it to pending or confirmed, the owner's cancel
    request is accepted again, and the count of the first slot with the
    booking's date and times becomes the Number [availableSpots +
    numberOfParticipants] once more, on top of what it holds: exactly
    that sum when the count is an integer and neither the count nor the
    participants nor their sum goes beyond 2^53 in size. *)
Theorem status_update_reopens_cancel
    (st : Store) (userId id : ObjectId) (b : Booking) (act : Activity)
    (i : nat) (slot : ScheduleSlot) (s p : string) :
  bookings st !! id = Some b → user b = userId →
  activities st !! activity b = Some act →
  schedule act !! i = Some slot → sameSlot b slot →
  (∀ j t, schedule act !! j = Some t → (j < i)%nat → ¬ sameSlot b t) →
  s ∈ ["pending"; "confirmed"] → p ∈ ["pending"; "paid"; "refunded"] →
  ∃ b1 st1 st2 act2 slot2,
    updateStatus st id (Some s) (Some p) = ((200, JBooking id b1), st1) ∧
    cancelBooking st1 userId id = (Cancelled, st2) ∧
    activities st2 !! activity b = Some act2 ∧
    schedule act2 !! i = Some slot2 ∧
    availableSpots slot2 =
      Number.add (availableSpots slot) (Number.ofN (numberOfParticipants b)) ∧
    (∀ n, Number.valueZ (availableSpots slot) = Some n →
       - 2 ^ 53 <= n → Z.of_N (numberOfParticipants b) <= 2 ^ 53 →
       n + Z.of_N (numberOfParticipants b) <= 2 ^ 53 →
       Number.valueZ (availableSpots slot2) =
         Some (n + Z.of_N (numberOfParticipants b))).
Proof.
  intros Hb Hu Hact Hi Hsame Hfirst Hs Hp.
  assert (s ≠ "cancelled" ∧ s ∈ ["pending"; "confirmed"; "cancelled"])
    as [Hlive Hs3].
  { rewrite !elem_of_cons, elem_of_nil in Hs. rewrite !elem_of_cons.
    destruct Hs as [->|[->|[]]]; split; auto; done. }
  assert (updateStatus st id (Some s) (Some p) =
            ((200, JBooking id (set_status b s p)),
             set_bookings st (<[id := set_status b s p]> (bookings st)))) as Hup.
  { unfold updateStatus, statusErrors, isIn.
    rewrite !bool_decide_eq_true_2 by done. by rewrite Hb. }
  eexists _, _, _, _, _. split; [exact Hup|].
  split.
  - apply (cancelBooking_matched _ _ _ (set_status b s p) act i slot).
    + apply lookup_insert_eq.
    + exact Hu.
    + exact Hlive.
    + exact Hact.
    + apply list_find_Some. split; [exact Hi|]. split; [exact Hsame|].
      exact Hfirst.
  - cbn [activities set_activities activity set_status].
    split; [apply lookup_insert_eq|]. cbn [schedule set_schedule].
    split; [apply list_lookup_insert_eq; by eapply lookup_lt_Some|].
    split; [done|].
    intros n Hn Hlo Hpart Hsum. cbn [availableSpots set_availableSpots].
    apply add_exact; [done | lia | lia | lia].
Qed.

Lemma status_update_reopens_cancel_witness :
  ∃ b1 st1 st2 act2,
    updateStatus Sample.store2 Sample.booking1 (Some "confirmed") (Some "paid")
      = ((200, JBooking Sample.booking1 b1), st1) ∧
    cancelBooking st1 Sample.alice Sample.booking1 = (Cancelled, st2) ∧
    activities st2 !! 2%N = Some act2 ∧
    (Number.valueZ ∘ availableSpots <$> schedule Sample.kayak) = [Some 1] ∧
    (Number.valueZ ∘ availableSpots <$> schedule act2) = [Some 2].
Proof.
  destruct (status_update_reopens_cancel Sample.store2 Sample.alice
              Sample.booking1
              (set_status
                 (newBooking Sample.alice 2%N Sample.slotLast (price Sample.kayak))
                 "cancelled" "refunded")
              Sample.kayak 0%nat Sample.slotLast "confirmed" "paid")
    as (b1 & st1 & st2 & act2 & slot2 & Hup & Hcancel & Hact2 & Hslot2 & Hspots & _).
  - vm_compute. reflexivity.
  - reflexivity.
  - vm_compute. reflexivity.
  - vm_compute. reflexivity.
  - by vm_compute.
  - intros j t _ Hj. lia.
  - apply list_elem_of_lookup. by exists 1%nat.
  - apply list_elem_of_lookup. by exists 1%nat.
  - exists b1, st1, st2, act2. split; [exact Hup|]. split; [exact Hcancel|].
    vm_compute in Hup. injection Hup as <- <-.
    vm_compute in Hcancel. injection Hcancel as <-.
    vm_compute in Hact2. injection Hact2 as <-. by vm_compute.
Defined.

(** ** The booking listings *)

Import BookingViews.

(** X6.  The my-bookings route answers 500 exactly when one of the
    caller's bookings refers to an activity that is not stored, and 200
    otherwise.  On 200 the list has one entry per booking of the caller
    and its entries are exactly the summaries of the activities of the
    caller's bookings: title, description, location and the date and
    times of the activity's first stored slot.  The slot recorded in the
    booking is not shown, and no other user's booking is. *)
Theorem myBookings_lists_activity_summaries (st : Store) (userId : ObjectId) :
  let r := myBookings st userId in
  (code r = 500 ↔
     ∃ id b, bookings st !! id = Some b ∧ user b = userId ∧
       activities st !! activity b = None) ∧
  (code r = 200 ∨ code r = 500) ∧
  (code r = 200 →
   ∃ l, r = (200, JSummaries l) ∧
     length l =
       length (filter (λ p : ObjectId * Booking, user (snd p) = userId)
                 (map_to_list (bookings st))) ∧
     ∀ s, s ∈ l ↔
       ∃ id b act, bookings st !! id = Some b ∧ user b = userId ∧
         activities st !! activity b = Some act ∧
         s = ActivityRoutes.summary (activity b) act).
Proof.
  cbn zeta. unfold myBookings.
  set (found := filter _ (map_to_list (bookings st))).
  set (f := λ p : ObjectId * Booking,
              ActivityRoutes.summary (activity p.2) <$> activities st !! activity p.2).
  assert (∀ id b, (id, b) ∈ found ↔ bookings st !! id = Some b ∧ user b = userId)
    as Hfound.
  { intros id b. unfold found. rewrite list_elem_of_filter, elem_of_map_to_list.
    cbn. tauto. }
  destruct (mapM f found) as [l|] eqn:Hmap; cbn.
  - split; [split; [done|]|].
    { intros (id & b & Hb & Hu & Hnone).
      assert (is_Some (mapM f found)) as Hsome by (by rewrite Hmap).
      apply mapM_is_Some in Hsome.
      pose proof (proj1 (Forall_forall _ _) Hsome (id, b)
                    (proj2 (Hfound id b) (conj Hb Hu))) as [x Hx].
      unfold f in Hx. cbn in Hx. rewrite Hnone in Hx. done. }
    split; [by left|]. intros _. exists l. split; [done|].
    apply mapM_Some in Hmap.
    split; [symmetry; by eapply Forall2_length|].
    intros s. split.
    + intros Hs. apply list_elem_of_lookup in Hs as [i Hi].
      destruct (Forall2_lookup_r _ _ _ _ _ Hmap Hi) as ([id b] & Hx & Hfx).
      assert ((id, b) ∈ found) as Hin
        by (apply list_elem_of_lookup; by exists i).
      apply Hfound in Hin as [Hb Hu]. unfold f in Hfx. cbn in Hfx.
      destruct (activities st !! activity b) as [act|] eqn:Hact; [|done].
      injection Hfx as <-. by exists id, b, act.
    + intros (id & b & act & Hb & Hu & Hact & ->).
      assert ((id, b) ∈ found) as Hin by (by apply Hfound).
      apply list_elem_of_lookup in Hin as [i Hi].
      destruct (Forall2_lookup_l _ _ _ _ _ Hmap Hi) as (y & Hy & Hfy).
      unfold f in Hfy. cbn in Hfy. rewrite Hact in Hfy. injection Hfy as <-.
      apply list_elem_of_lookup. by exists i.
  - split; [split; [intros _|done]|].
    { apply mapM_None, Exists_exists in Hmap as ([id b] & Hin & Hnone).
      apply Hfound in Hin as [Hb Hu]. unfold f in Hnone. cbn in Hnone.
      exists id, b. split; [done|]. split; [done|].
      by destruct (activities st !! activity b). }
    split; [by right | done].
Qed.

(** After Alice books the June slot of the yoga class, her listing shows
    the class with the date of its first stored slot, in March. *)
Example myBookings_shows_first_slot :
  let st1 := snd (createBooking Sample.store0 Sample.alice (Some 1%N)) in
  (bdate ∘ bschedule <$> bookings st1 !! Sample.booking1)
    = Some (date Sample.slotJune) ∧
  myBookings st1 Sample.alice =
    (200, JSummaries [ActivityRoutes.summary 1%N Sample.yoga]) ∧
  sdate (ActivityRoutes.summary 1%N Sample.yoga) = Some (date Sample.slotFull) ∧
  myBookings st1 Sample.bob = (200, JSummaries []).
Proof. by vm_compute. Qed.

(** X7.  A booking cancelled by its owner stays in the admin listing:
    the listing has as many rows as before, and the row of the booking
    now shows it cancelled and refunded. *)
Theorem cancelled_booking_stays_listed
    (st : Store) (userId id : ObjectId) (b : Booking) :
  bookings st !! id = Some b → user b = userId → status b ≠ "cancelled" →
  let st' := snd (cancelBooking st userId id) in
  fst (listAll st') = 200 ∧
  length (snd (listAll st')) = length (snd (listAll st)) ∧
  ∃ row, row ∈ snd (listAll st') ∧ row_id row = id ∧
    row_booking row = set_status b "cancelled" "refunded" ∧
    row_user row = (λ u, (name u, email u)) <$> users st !! userId.
Proof.
  intros Hb Hu Hlive. cbn zeta.
  destruct (cancelBooking_live st userId id b Hb Hu Hlive)
    as (r & st' & Hrun & Hbookings & Husers).
  rewrite Hrun. cbn [snd]. unfold listAll. cbn [fst snd].
  split; [done|]. rewrite !length_fmap, !length_map_to_list, Hbookings.
  split.
  - rewrite <- !size_dom, dom_insert_L.
    f_equal. apply elem_of_dom_2 in Hb. set (d := dom (bookings st)) in *.
    clearbody d. apply set_eq. intros x.
    rewrite elem_of_union, elem_of_singleton. split; [intros [->|]; done | auto].
  - eexists. split.
    + apply (list_elem_of_fmap_2 _ _ (id, set_status b "cancelled" "refunded")).
      apply elem_of_map_to_list, lookup_insert_eq.
    + cbn. rewrite Husers, Hu. done.
Qed.

Lemma cancelled_booking_stays_listed_witness :
  length (snd (listAll Sample.store2)) = length (snd (listAll Sample.store1)) ∧
  ∃ row, row ∈ snd (listAll Sample.store2) ∧
    row_id row = Sample.booking1 ∧ status (row_booking row) = "cancelled".
Proof.
  destruct (cancelled_booking_stays_listed Sample.store1 Sample.alice
              Sample.booking1
              (newBooking Sample.alice 2%N Sample.slotLast (price Sample.kayak)))
    as (_ & Hlen & row & Hrow & Hid & Hbook & _).
  - vm_compute. reflexivity.
  - reflexivity.
  - vm_compute. discriminate.
  - split; [exact Hlen|]. exists row. split; [exact Hrow|].
    split; [exact Hid|]. by rewrite Hbook.
Defined.

(** ** What no route does *)

Import Api.

Section Frames.
Context `{!ValidatorJs} `{!ActivityModel} `{!AuthServices}.

Lemma findByEmail_None (st : Store) (e : string) :
  findByEmail st e = None ↔ ∀ i u, users st !! i = Some u → email u ≠ e.
Proof.
  unfold findByEmail. rewrite fmap_None, list_find_None, Forall_forall. split.
  - intros Hall i u Hi. apply (Hall (i, u)). by apply elem_of_map_to_list.
  - intros Hall [i u] Hi. apply elem_of_map_to_list in Hi. by eapply Hall.
Qed.

Lemma findByEmail_Some (st : Store) (e : string) (i : ObjectId) (u : User) :
  findByEmail st e = Some (i, u) → users st !! i = Some u ∧ email u = e.
Proof.
  unfold findByEmail. intros Hfind.
  apply fmap_Some in Hfind as ([n [j v]] & Hfind & [= -> ->]).
  apply list_find_Some in Hfind as (Hn & He & _).
  split; [|done]. apply elem_of_map_to_list, list_elem_of_lookup. by exists n.
Qed.

(** One call either leaves a collection as it is, adds a document under
    an unused id, or replaces a stored document; a replaced booking keeps
    its reservation, an added user has an email no stored user has. *)
Lemma serve_shape (st : Store) (c : Call) :
  let st' := snd (serve st c) in
  (users st' = users st ∨
   ∃ u, users st' = <[fresh (dom (users st)) := u]> (users st) ∧
     ∀ i v, users st !! i = Some v → email v ≠ email u) ∧
  (bookings st' = bookings st ∨
   (∃ b, bookings st' = <[fresh (dom (bookings st)) := b]> (bookings st)) ∨
   ∃ id b b', bookings st !! id = Some b ∧ sameReservation b b' ∧
     bookings st' = <[id := b']> (bookings st)) ∧
  (activities st' = activities st ∨
   (∃ a, activities st' = <[fresh (dom (activities st)) := a]> (activities st)) ∨
   ∃ id a a', activities st !! id = Some a ∧
     activities st' = <[id := a']> (activities st)).
Proof.
  cbn zeta. destruct c as [form|body|id body|id|u a|u b|b s p]; cbn [serve].
  - unfold register. destruct (registerErrors form); [|by auto].
    destruct (findByEmail st (sanitizedEmail form)) eqn:Hfind; [by auto|].
    cbn. split; [|by auto]. right. eexists. split; [done|].
    cbn. by apply findByEmail_None.
  - unfold ActivityRoutes.createActivity.
    destruct (ActivityRoutes.createErrors body); [|by auto].
    destruct (castActivity _); [|by auto]. cbn.
    split; [by left|]. split; [by left|]. right. left. by eexists.
  - unfold ActivityRoutes.updateActivity.
    destruct (ActivityRoutes.updateErrors body); [|by auto].
    destruct (castUpdate _); [|by auto].
    destruct (activities st !! id) as [act|] eqn:Hact; [|by auto]. cbn.
    split; [by left|]. split; [by left|]. right. right. by eexists _, _, _.
  - unfold ActivityRoutes.softDelete.
    destruct (activities st !! id) as [act|] eqn:Hact; [|by auto]. cbn.
    split; [by left|]. split; [by left|]. right. right. by eexists _, _, _.
  - unfold createBooking. destruct a as [aid|]; [|by auto].
    destruct (findOneActive st aid) as [act|] eqn:Hact; [|by auto].
    apply findOneActive_Some in Hact as [Hact _].
    destruct (list_find hasSpots (schedule act)) as [[i slot]|]; [|by auto].
    cbn. split; [by left|]. split; [right; left; by eexists|].
    right. right. by eexists _, _, _.
  - unfold cancelBooking.
    destruct (findOneOwned st b u) as [bk|] eqn:Hbk; [|by auto].
    apply findOneOwned_Some in Hbk as [Hbk _].
    destruct (decide (status bk = "cancelled")); [by auto|]. cbn.
    assert (∃ id b0 b', bookings st !! id = Some b0 ∧ sameReservation b0 b' ∧
              <[b := set_status bk "cancelled" "refunded"]> (bookings st)
              = <[id := b']> (bookings st)) as Hbooking.
    { exists b, bk, (set_status bk "cancelled" "refunded").
      split; [done|]. split; [by repeat split | done]. }
    destruct (activities st !! activity bk) as [act|] eqn:Hact;
      [|split; [by left|]; split; [right; by right | by left]].
    destruct (list_find _ (schedule act)) as [[i slot]|]; cbn;
      [|split; [by left|]; split; [right; by right | by left]].
    split; [by left|]. split; [right; by right|].
    right. right. by eexists _, _, _.
  - unfold updateStatus. destruct (statusErrors s p); [|by auto].
    destruct (bookings st !! b) as [bk|] eqn:Hbk; [|by auto]. cbn.
    split; [by left|]. split; [|by left]. right. right.
    exists b, bk, (set_status bk (default "" s) (default "" p)).
    split; [done|]. split; [by repeat split | done].
Qed.

End Frames.

Section Invariants.
Context `{!ValidatorJs} `{!ActivityModel} `{!AuthServices}.

Lemma sameReservation_trans (a b c : Booking) :
  sameReservation a b → sameReservation b c → sameReservation a c.
Proof.
  intros (? & ? & ? & ? & ?) (? & ? & ? & ? & ?). repeat split; congruence.
Qed.

(** X8.  No route changes or removes a stored user: after any list of
    calls to the writing routes, every user is stored under the same id
    with the same name, email, password hash, phone and role. *)
Theorem stored_users_never_change
    (st : Store) (cs : list Call) (i : ObjectId) (u : User) :
  users st !! i = Some u → users (serveAll st cs) !! i = Some u.
Proof.
  revert st. induction cs as [|c cs IH]; intros st Hi; [done|].
  cbn. apply IH.
  destruct (serve_shape st c) as [[-> | (v & -> & _)] _]; [done|].
  rewrite lookup_insert_ne; [done|]. intros <-.
  by rewrite fresh_user_id in Hi.
Qed.

(** X9.  No route removes a booking or rewrites its reservation: after
    any list of calls, a stored booking is still stored under its id,
    for the same user and activity, with the same slot snapshot,
    participants and price.  Only its status and payment status may
    differ. *)
Theorem bookings_keep_their_reservation
    (st : Store) (cs : list Call) (i : ObjectId) (b : Booking) :
  bookings st !! i = Some b →
  ∃ b', bookings (serveAll st cs) !! i = Some b' ∧ sameReservation b b'.
Proof.
  revert st b. induction cs as [|c cs IH]; intros st b Hi.
  { exists b. split; [done | by repeat split]. }
  cbn.
  destruct (serve_shape st c)
    as (_ & [Heq | [(n & Heq) | (id & b0 & b1 & Hid & Hsame & Heq)]] & _).
  - apply IH. by rewrite Heq.
  - apply IH. rewrite Heq, lookup_insert_ne; [done|]. intros <-.
    by rewrite fresh_booking_id in Hi.
  - destruct (decide (id = i)) as [->|Hne].
    + assert (b0 = b) as -> by congruence.
      destruct (IH (snd (serve st c)) b1) as (b' & Hb' & Hsame').
      { rewrite Heq. apply lookup_insert_eq. }
      exists b'. split; [done|]. by eapply sameReservation_trans.
    + apply IH. by rewrite Heq, lookup_insert_ne.
Qed.

(** X10.  No route removes an activity document: an id that has an
    activity still has one after any list of calls, deletions included. *)
Theorem activities_never_removed
    (st : Store) (cs : list Call) (i : ObjectId) (a : Activity) :
  activities st !! i = Some a →
  ∃ a', activities (serveAll st cs) !! i = Some a'.
Proof.
  revert st a. induction cs as [|c cs IH]; intros st a Hi; [by exists a|].
  cbn.
  destruct (serve_shape st c)
    as (_ & _ & [Heq | [(n & Heq) | (id & a0 & a1 & Hid & Heq)]]).
  - eapply IH. by rewrite Heq.
  - eapply IH. rewrite Heq, lookup_insert_ne; [done|]. intros <-.
    assert (activities st !! fresh (dom (activities st)) = None) as Hnone
      by apply not_elem_of_dom, is_fresh.
    by rewrite Hnone in Hi.
  - destruct (decide (id = i)) as [->|Hne].
    + eapply IH. rewrite Heq. apply lookup_insert_eq.
    + eapply IH. by rewrite Heq, lookup_insert_ne.
Qed.

(** X11.  If no two stored users share an email, none do after any list
    of calls: registration is the only route that adds a user, and it
    refuses an email that is already stored. *)
Theorem emails_stay_unique (st : Store) (cs : list Call) :
  uniqueEmails st → uniqueEmails (serveAll st cs).
Proof.
  revert st. induction cs as [|c cs IH]; intros st Huniq; [done|].
  cbn. apply IH.
  destruct (serve_shape st c) as [[Heq | (w & Heq & Hnew)] _];
    unfold uniqueEmails; rewrite Heq; [done|].
  intros i j u v Hi Hj He.
  destruct (decide (fresh (dom (users st)) = i)) as [<-|Hni];
    destruct (decide (fresh (dom (users st)) = j)) as [<-|Hnj]; [done|..].
  - rewrite lookup_insert_eq in Hi. rewrite lookup_insert_ne in Hj by done.
    injection Hi as <-. destruct (Hnew j v Hj). done.
  - rewrite lookup_insert_eq in Hj. rewrite lookup_insert_ne in Hi by done.
    injection Hj as <-. destruct (Hnew i u Hi). done.
  - rewrite lookup_insert_ne in Hi, Hj by done. by eapply Huniq.
Qed.

End Invariants.

Lemma stored_users_never_change_witness :
  ∃ u, users (Sample2.served
                (snd (@register Plain.validator Plain.services
                        Sample.store0 Plain.adminForm))) !! 0%N = Some u ∧
    email u = "admin@example.com" ∧ role u = "admin".
Proof.
  eexists. split.
  - apply (@stored_users_never_change Plain.validator Sample2.model Plain.services).
    vm_compute. reflexivity.
  - split; reflexivity.
Defined.

Lemma bookings_keep_their_reservation_witness :
  ∃ b', bookings (Sample2.served Sample.store1) !! Sample.booking1 = Some b' ∧
    sameReservation
      (newBooking Sample.alice 2%N Sample.slotLast (price Sample.kayak)) b'.
Proof.
  apply (@bookings_keep_their_reservation
           Plain.validator Sample2.model Plain.services).
  vm_compute. reflexivity.
Defined.

Lemma activities_never_removed_witness :
  ∃ a', activities (Sample2.served Sample.store0) !! 1%N = Some a'.
Proof.
  apply (@activities_never_removed Plain.validator Sample2.model Plain.services
           Sample.store0 Sample2.calls 1%N Sample.yoga).
  reflexivity.
Defined.

Lemma emails_stay_unique_witness :
  ∃ st', st' = Sample2.served Sample.store0 ∧ uniqueEmails st' ∧
    size (users st') = 2%nat.
Proof.
  eexists. split; [reflexivity|]. split; [|by vm_compute].
  apply (@emails_stay_unique Plain.validator Sample2.model Plain.services).
  intros i j u v Hi. vm_compute in Hi. discriminate.
Defined.

(** ** Registration and login *)

Import AuthSession.

Section Accounts.
Context `{!ValidatorJs} `{!AuthServices} `{!PasswordCheck}.

Lemma findByEmail_found (st : Store) (i : ObjectId) (u : User) :
  users st !! i = Some u → is_Some (findByEmail st (email u)).
Proof.
  intros Hi. destruct (findByEmail st (email u)) as [found|] eqn:Hfind; [done|].
  destruct (proj1 (findByEmail_None st (email u)) Hfind i u Hi). done.
Qed.

(** X12.  An email can be registered once: after a registration answered
    201, a valid form that carries the same email after sanitization,
    whatever its other fields, is answered 400 "User already exists" and
    leaves the store as it is. *)
Theorem register_refuses_second_use (st : Store) (form form2 : RawRegister) :
  code (fst (register st form)) = 201 →
  registerErrors form2 = [] →
  sanitizedEmail form2 = sanitizedEmail form →
  register (snd (register st form)) form2 =
    ((400, JMessage "User already exists"), snd (register st form)).
Proof.
  intros Hok Hvalid2 Hsame.
  apply register_201 in Hok as [Hvalid Hnew].
  unfold register at 1. rewrite Hvalid2, Hsame.
  unfold register. rewrite Hvalid, Hnew. cbn [snd].
  set (u := mkUser _ _ _ _ _).
  destruct (findByEmail_found
              (set_users st (<[fresh (dom (users st)) := u]> (users st)))
              (fresh (dom (users st))) u) as [found Hfound];
    [apply lookup_insert_eq|].
  change (email u) with (sanitizedEmail form) in Hfound. by rewrite Hfound.
Qed.

(** X13.  Whoever has just registered can log in: if the password check
    accepts a password against its own hash, then after a registration
    answered 201 a login with the same email and password fields is
    answered 200 with the new user's id, name and email and the role the
    registration gave. *)
Theorem register_then_login (st : Store) (form : RawRegister) :
  (∀ u p, password u = hashPassword p → comparePassword u p = true) →
  code (fst (register st form)) = 201 →
  let id := fresh (dom (users st)) in
  login (snd (register st form))
    {| l_email := r_email form; l_password := r_password form |} =
    (200, ALoggedIn "Login successful" (signToken id) id
            (sanitizedName form) (sanitizedEmail form)
            (roleFor (sanitizedEmail form))).
Proof.
  intros Hcheck Hok. cbn zeta.
  apply register_201 in Hok as [Hvalid Hnew].
  assert (loginErrors {| l_email := r_email form; l_password := r_password form |}
          = []) as Hlogin.
  { unfold registerErrors in Hvalid. unfold loginErrors, loginPassword.
    cbn [l_email l_password] in *. cbn zeta in *.
    apply app_nil in Hvalid as [_ Hvalid].
    apply app_nil in Hvalid as [Hemail Hvalid].
    apply app_nil in Hvalid as [Hpass _].
    apply app_nil in Hpass as [Hpass _].
    unfold sanitizedPassword in Hpass. by rewrite Hemail, Hpass. }
  unfold login. rewrite Hlogin. unfold loginEmail, loginPassword. cbn [l_email l_password].
  fold (sanitizedEmail form). fold (sanitizedPassword form).
  unfold register. rewrite Hvalid, Hnew. cbn [snd].
  set (u := mkUser _ _ _ _ _).
  set (st' := set_users st _).
  destruct (findByEmail st' (sanitizedEmail form)) as [[j v]|] eqn:Hfind.
  - apply findByEmail_Some in Hfind as [Hj Hv]. unfold st' in Hj. cbn in Hj.
    destruct (decide (fresh (dom (users st)) = j)) as [<-|Hne].
    + rewrite lookup_insert_eq in Hj. injection Hj as <-.
      rewrite Hcheck by done. done.
    + rewrite lookup_insert_ne in Hj by done.
      destruct (proj1 (findByEmail_None st _) Hnew j v Hj). done.
  - destruct (findByEmail_found st' (fresh (dom (users st))) u) as [x Hx];
      [apply lookup_insert_eq|].
    cbn in Hx. rewrite Hfind in Hx. done.
Qed.

(** X14.  Login answers 200 exactly when the form is valid, a user is
    stored under its email and the password check accepts the password
    for that user.  A valid form that fails either way gets the same 401
    "Invalid credentials": the answer does not tell an unknown email from
    a wrong password. *)
Theorem login_answers (st : Store) (body : RawLogin) :
  let r := login st body in
  (fst r = 200 ↔
     loginErrors body = [] ∧
     ∃ id u, findByEmail st (loginEmail body) = Some (id, u) ∧
       comparePassword u (loginPassword body) = true) ∧
  (fst r = 400 ↔ loginErrors body ≠ []) ∧
  (loginErrors body = [] → fst r ≠ 200 →
   r = (401, AMessage "Invalid credentials")).
Proof.
  cbn zeta. unfold login.
  destruct (loginErrors body) as [|e errs]; cbn.
  2:{ split; [split; [done | by intros [? _]]|]. split; done. }
  destruct (findByEmail st (loginEmail body)) as [[id u]|]; cbn.
  - destruct (comparePassword u (loginPassword body)) eqn:Hcmp; cbn.
    + split; [split; [intros _; split; [done|]; by exists id, u | done]|].
      split; done.
    + split; [split; [done | intros [_ (? & ? & [= <- <-] & ?)]; congruence]|].
      split; done.
  - split; [split; [done | by intros [_ (? & ? & ? & _)]]|]. split; done.
Qed.

End Accounts.

Lemma register_refuses_second_use_witness :
  @register Plain.validator Plain.services
    (snd (@register Plain.validator Plain.services Sample.store0 Plain.adminForm))
    (mkRawRegister (Some "Eve") (Some " ADMIN@example.com ") (Some "other99")
       (Some "9876543210"))
  = ((400, JMessage "User already exists"),
     snd (@register Plain.validator Plain.services Sample.store0 Plain.adminForm)).
Proof.
  apply (@register_refuses_second_use Plain.validator Plain.services).
  - reflexivity.
  - reflexivity.
  - reflexivity.
Defined.

Lemma register_then_login_witness :
  @login Plain.validator Plain.services Sample2.passwords
    (snd (@register Plain.validator Plain.services Sample.store0 Plain.adminForm))
    {| l_email := r_email Plain.adminForm; l_password := r_password Plain.adminForm |}
  = (200, ALoggedIn "Login successful" "token" 0%N "Ada" "admin@example.com" "admin").
Proof.
  apply (@register_then_login Plain.validator Plain.services Sample2.passwords
           Sample.store0 Plain.adminForm).
  - intros u p Hp. cbn. rewrite Hp. by apply bool_decide_eq_true_2.
  - reflexivity.
Defined.

(** ** The time pattern *)

Import Validation.

(** Case analysis on the strings and on the bits of the characters that a
    pattern match inspects, one bit at a time. *)
Ltac crunch :=
  repeat (cbn; first
    [ discriminate
    | match goal with
      | |- context [match ?b with true => _ | false => _ end] =>
          is_var b; destruct b
      end
    | match goal with
      | |- context [match ?r with EmptyString => _ | String _ _ => _ end] =>
          is_var r; destruct r
      end
    | match goal with
      | |- context [match ?c with Ascii _ _ _ _ _ _ _ _ => _ end] =>
          is_var c; destruct c
      end ]).

Lemma matchesTime_shape (s : string) :
  matchesTime s = true →
  (∃ h m1 m2, s = String h (String ":" (String m1 (String m2 EmptyString))) ∧
     isDigit h = true ∧ inRange "0" "5" m1 = true ∧ isDigit m2 = true) ∨
  (∃ h1 h2 m1 m2,
     s = String h1 (String h2 (String ":" (String m1 (String m2 EmptyString)))) ∧
     ((inRange "0" "1" h1 && isDigit h2) ||
      (bool_decide (h1 = "2"%char) && inRange "0" "3" h2)) = true ∧
     inRange "0" "5" m1 = true ∧ isDigit m2 = true).
Proof.
  unfold matchesTime. crunch.
  all: intros H; apply andb_prop in H as [H ?]; apply andb_prop in H as [H ?].
  all: first
    [ left; eexists _, _, _; split; [reflexivity|]; done
    | right; eexists _, _, _, _; split; [reflexivity|]; done ].
Qed.

Lemma inRange_digitChar (hi c : ascii) :
  inRange "0" hi c = true → (N_of_ascii hi <= 57)%N →
  ∃ d, (d <= N.to_nat (N_of_ascii hi) - 48)%nat ∧ c = Clock.digitChar d.
Proof.
  unfold inRange. intros H Hhi. apply andb_prop in H as [Hlo Hup].
  apply N.leb_le in Hlo, Hup. change (N_of_ascii "0") with 48%N in Hlo.
  exists (nat_of_ascii c - 48)%nat. unfold Clock.digitChar, nat_of_ascii.
  split; [lia|].
  replace (48 + (N.to_nat (N_of_ascii c) - 48))%nat
    with (nat_of_ascii c) by (unfold nat_of_ascii; lia).
  symmetry. apply ascii_nat_embedding.
Qed.

Lemma isDigit_digitChar (c : ascii) :
  isDigit c = true → ∃ d, (d < 10)%nat ∧ c = Clock.digitChar d.
Proof.
  intros H. destruct (inRange_digitChar "9" c) as (d & Hd & ->); [exact H|done|].
  exists d. split; [|done]. change (N.to_nat (N_of_ascii "9")) with 57%nat in Hd. lia.
Qed.

Lemma twoDigits_digits (d1 d2 : nat) :
  (d2 < 10)%nat →
  Clock.twoDigits (10 * d1 + d2) =
    String (Clock.digitChar d1) (String (Clock.digitChar d2) EmptyString).
Proof.
  intros Hd. unfold Clock.twoDigits.
  rewrite <- (Nat.div_unique (10 * d1 + d2) 10 d1 d2) by lia.
  rewrite <- (Nat.mod_unique (10 * d1 + d2) 10 d1 d2) by lia. done.
Qed.

Lemma clock_accepted (h m : nat) :
  (h < 24)%nat → (m < 60)%nat → matchesTime (Clock.clock h m) = true.
Proof.
  intros Hh Hm.
  assert (forallb (λ h, forallb (λ m, matchesTime (Clock.clock h m)) (seq 0 60))
            (seq 0 24) = true) as Hall by (vm_compute; reflexivity).
  rewrite forallb_forall in Hall.
  specialize (Hall h (proj2 (in_seq _ _ _) (conj (Nat.le_0_l _) Hh))).
  rewrite forallb_forall in Hall.
  exact (Hall m (proj2 (in_seq _ _ _) (conj (Nat.le_0_l _) Hm))).
Qed.

Lemma shortClock_accepted (h m : nat) :
  (h < 10)%nat → (m < 60)%nat → matchesTime (Clock.shortClock h m) = true.
Proof.
  intros Hh Hm.
  assert (forallb (λ h, forallb (λ m, matchesTime (Clock.shortClock h m)) (seq 0 60))
            (seq 0 10) = true) as Hall by (vm_compute; reflexivity).
  rewrite forallb_forall in Hall.
  specialize (Hall h (proj2 (in_seq _ _ _) (conj (Nat.le_0_l _) Hh))).
  rewrite forallb_forall in Hall.
  exact (Hall m (proj2 (in_seq _ _ _) (conj (Nat.le_0_l _) Hm))).
Qed.

(** X15.  The time pattern of the create route accepts exactly the
    times of day: a string passes if and only if it is an hour below 24
    written with two digits, or an hour below 10 written with one, then
    a colon, then a minute below 60 written with two digits. *)
Theorem matchesTime_exactly (s : string) :
  matchesTime s = true ↔
  ∃ h m, (h < 24)%nat ∧ (m < 60)%nat ∧
    (s = Clock.clock h m ∨ ((h < 10)%nat ∧ s = Clock.shortClock h m)).
Proof.
  split.
  - intros Hs. apply matchesTime_shape in Hs
      as [(h & m1 & m2 & -> & Hh & Hm1 & Hm2)
         | (h1 & h2 & m1 & m2 & -> & Hh & Hm1 & Hm2)].
    + apply isDigit_digitChar in Hh as (d & Hd & ->).
      apply inRange_digitChar in Hm1 as (d1 & Hd1 & ->); [|done].
      apply isDigit_digitChar in Hm2 as (d2 & Hd2 & ->).
      change (N.to_nat (N_of_ascii "5")) with 53%nat in Hd1.
      exists d, (10 * d1 + d2)%nat. split; [lia|]. split; [lia|]. right.
      split; [done|]. unfold Clock.shortClock. by rewrite twoDigits_digits.
    + apply inRange_digitChar in Hm1 as (d1 & Hd1 & ->); [|done].
      apply isDigit_digitChar in Hm2 as (d2 & Hd2 & ->).
      change (N.to_nat (N_of_ascii "5")) with 53%nat in Hd1.
      assert (∃ e1 e2, (10 * e1 + e2 < 24)%nat ∧ (e2 < 10)%nat ∧
                h1 = Clock.digitChar e1 ∧ h2 = Clock.digitChar e2)
        as (e1 & e2 & He & He2 & -> & ->).
      { apply orb_prop in Hh as [Hh|Hh]; apply andb_prop in Hh as [Ha Hb].
        - apply inRange_digitChar in Ha as (e1 & He1 & ->); [|done].
          apply isDigit_digitChar in Hb as (e2 & He2 & ->).
          change (N.to_nat (N_of_ascii "1")) with 49%nat in He1.
          exists e1, e2. repeat split; [lia | done].
        - apply bool_decide_eq_true in Ha as ->.
          apply inRange_digitChar in Hb as (e2 & He2 & ->); [|done].
          change (N.to_nat (N_of_ascii "3")) with 51%nat in He2.
          exists 2%nat, e2. repeat split; lia. }
      exists (10 * e1 + e2)%nat, (10 * d1 + d2)%nat.
      split; [lia|]. split; [lia|]. left.
      unfold Clock.clock. by rewrite !twoDigits_digits.
  - intros (h & m & Hh & Hm & [-> | [Hh' ->]]).
    + by apply clock_accepted.
    + by apply shortClock_accepted.
Qed.

(** ** Creating and deleting activities *)

Section Catalogue.
Context `{!ValidatorJs} `{!ActivityModel}.

(** X16.  A create request that passes validation and that the model
    accepts is answered 201 with the new activity under an id that was
    not in use; the single-activity route then returns exactly that
    activity, the listing shows its summary if it is active, and every
    other activity, booking and user is as before. *)
Theorem created_activity_can_be_read
    (st : Store) (body : RawActivity) (a : Activity) :
  ActivityRoutes.createErrors body = [] →
  castActivity (ActivityRoutes.createSanitized body) = Some a →
  ∃ id st' l,
    ActivityRoutes.createActivity st body = ((201, JActivity id a), st') ∧
    activities st !! id = None ∧
    getById st' id = (200, JActivity id a) ∧
    (∀ j, j ≠ id → getById st' j = getById st j) ∧
    bookings st' = bookings st ∧ users st' = users st ∧
    listActive st' = (200, JSummaries l) ∧
    (isActive a = true → summary id a ∈ l).
Proof.
  intros Hvalid Hcast. unfold ActivityRoutes.createActivity.
  rewrite Hvalid, Hcast.
  eexists _, _, _. split; [reflexivity|].
  split; [apply not_elem_of_dom, is_fresh|].
  unfold getById, listActive. cbn [activities set_activities bookings users].
  split; [by rewrite lookup_insert_eq|].
  split; [intros j Hj; by rewrite lookup_insert_ne|].
  split; [done|]. split; [done|]. split; [reflexivity|].
  intros Hon.
  apply (list_elem_of_fmap_2' _ _ (fresh (dom (activities st)), a)); [|done].
  apply list_elem_of_filter. split; [done|].
  apply elem_of_map_to_list, lookup_insert_eq.
Qed.

End Catalogue.

Lemma created_activity_can_be_read_witness :
  ∃ id st' a,
    @ActivityRoutes.createActivity Plain.validator Sample2.model
      Sample.store0 Sample2.surfForm = ((201, JActivity id a), st') ∧
    getById st' id = (200, JActivity id a) ∧
    title a = "Surf class" ∧
    schedule a = [mkSlot 1777593600000 "10:00" "12:00" (Number.ofZ 6)].
Proof.
  edestruct (@created_activity_can_be_read Plain.validator Sample2.model
               Sample.store0 Sample2.surfForm)
    as (id & st' & l & Hrun & _ & Hget & _).
  - reflexivity.
  - vm_compute. reflexivity.
  - eexists id, st', _. split; [exact Hrun|]. split; [exact Hget|].
    split; reflexivity.
Defined.

(** X17.  A deleted activity is closed for booking but not gone: after
    the delete route has answered for a stored activity, a reservation
    on it is answered 404 and changes nothing, deleting it again is
    answered 200 and changes nothing, and a live booking made on it
    earlier can still be cancelled by its owner with answer 200. *)
Theorem deleted_activity_is_closed
    (st : Store) (id userId : ObjectId) (act : Activity) :
  activities st !! id = Some act →
  let st' := snd (softDelete st id) in
  createBooking st' userId (Some id) = (NotFoundActivity, st') ∧
  softDelete st' id = ((200, JMessage "Activity deleted successfully"), st') ∧
  ∀ bid b, bookings st !! bid = Some b → activity b = id →
    user b = userId → status b ≠ "cancelled" →
    fst (cancelBooking st' userId bid) = Cancelled.
Proof.
  intros Hact. cbn zeta.
  assert (snd (softDelete st id) =
            set_activities st (<[id := set_isActive act false]> (activities st)))
    as -> by (unfold softDelete; by rewrite Hact).
  set (st' := set_activities st _).
  assert (activities st' !! id = Some (set_isActive act false)) as Hact'
    by apply lookup_insert_eq.
  split; [|split].
  - unfold createBooking, findOneActive. by rewrite Hact'.
  - unfold softDelete. rewrite Hact'. f_equal. unfold st'. cbn.
    by rewrite insert_insert_eq.
  - intros bid b Hb Hid Hu Hlive. unfold cancelBooking.
    rewrite (proj2 (findOneOwned_Some st' bid userId b) (conj Hb Hu)).
    rewrite decide_False by done.
    subst st'. cbn [activities set_bookings set_activities activity set_status].
    rewrite Hid, lookup_insert_eq.
    by destruct (list_find _ _) as [[i slot]|].
Qed.

Lemma deleted_activity_is_closed_witness :
  ∃ st', st' = snd (softDelete Sample.store1 2%N) ∧
    createBooking st' Sample.bob (Some 2%N) = (NotFoundActivity, st') ∧
    softDelete st' 2%N = ((200, JMessage "Activity deleted successfully"), st') ∧
    fst (cancelBooking st' Sample.alice Sample.booking1) = Cancelled.
Proof.
  eexists. split; [reflexivity|].
  edestruct (deleted_activity_is_closed Sample.store1 2%N Sample.bob)
    as (Hbook & Hagain & _); [vm_compute; reflexivity|].
  split; [exact Hbook|]. split; [exact Hagain|].
  edestruct (deleted_activity_is_closed Sample.store1 2%N Sample.alice)
    as (_ & _ & Hcancel); [vm_compute; reflexivity|].
  apply (Hcancel Sample.booking1
           (newBooking Sample.alice 2%N Sample.slotLast (price Sample.kayak))).
  - vm_compute. reflexivity.
  - reflexivity.
  - reflexivity.
  - vm_compute. discriminate.
Defined.
